(** * Polymarket arbitrage scanner: a shallow embedding of
      src/polymarket/models.py, src/polymarket/scanner.py,
      src/polymarket/api.py (fetch_active_markets, fetch_orderbook,
      fetch_orderbooks_batch) and the output of src/polymarket/cli.py
      (format_table and the report printed by run).

    Modelling conventions.
    - Python floats, two ways.  The properties of the detector's structure
      (which opportunities it builds, from which fields, in which order)
      and of the best-price accessors read floats as exact rationals [Q],
      with the simple decimal [float] of [py_float].  Where rounding
      matters, floats are IEEE 754 doubles [f64], rounded to nearest even,
      with infinities and NaN: the threshold test of the detector
      ([binary_buy_block64] and the other blocks on doubles), the sort keys
      of the order-book ladders and the volumes of Gamma markets.  [float]
      on a str is then CPython's [float_of_text], on a JSON integer a
      rounding that raises [OverflowError] past the largest double.  Every
      comparison of the code ([<], [>], [>=]) is kept literally, with no
      tolerance.
    - [sorted] and [list.sort] with a [key] are CPython's stable sort
      ([py_list_sort]), comparing keys with [<] only.
    - [sum] over a list of doubles is a parameter of the detector on
      doubles: CPython 3.11 adds from left to right ([sum_left]), later
      versions keep a compensation term.
    - A Python str is a Rocq [string] with one [ascii] per code point, so
      [String.length] is [len()], and slicing and padding count code
      points.  The model covers texts whose code points are at most U+00FF.
    - Python exceptions are the [Raise] case of a small error monad
      [result]; [let! x := m in k] is the sequencing of two Python
      statements, propagating the first exception raised.
    - JSON-decoded payloads (dicts, lists, strings, numbers) are [pyval].
    - [json.loads] on a str and float formatting [format(x, ".pf")] are
      Section parameters: the properties hold for any parser and any
      formatter.
    - Logging and the human-readable [details] strings are not modelled. *)

From Stdlib Require Import String Ascii List Bool ZArith QArith Qminmax.
From Stdlib Require Import Sorted Permutation Lia DecimalString.
Import ListNotations.
Set Warnings "-register-all".
Open Scope string_scope.
Open Scope list_scope.

(* ------------------------------------------------------------------ *)
(** ** Python exceptions and the error monad *)

Inductive exn : Type :=
| KeyError
| ValueError
| TypeError
| AttributeError
| JSONDecodeError
| OverflowError.

Inductive result (A : Type) : Type :=
| Ok (a : A)
| Raise (e : exn).
Arguments Ok {A} a.
Arguments Raise {A} e.

Definition bind {A B : Type} (m : result A) (k : A -> result B) : result B :=
  match m with
  | Ok a => k a
  | Raise e => Raise e
  end.

Notation "'let!' x ':=' m 'in' k" := (bind m (fun x => k))
  (at level 200, x name, m at level 100, k at level 200).

Fixpoint mapM {A B : Type} (f : A -> result B) (l : list A) : result (list B) :=
  match l with
  | [] => Ok []
  | x :: xs => let! y := f x in let! ys := mapM f xs in Ok (y :: ys)
  end.

(* ------------------------------------------------------------------ *)
(** ** Python values (as produced by [response.json()]) *)

Inductive pyval : Type :=
| PyNone
| PyBool (b : bool)
| PyNum (q : Q)
| PyStr (s : string)
| PyList (l : list pyval)
| PyDict (kv : list (string * pyval)).

Fixpoint assoc_lookup {V : Type} (k : string) (kv : list (string * V)) : option V :=
  match kv with
  | [] => None
  | (k', v) :: rest => if String.eqb k k' then Some v else assoc_lookup k rest
  end.

(** Python truthiness, used by [x or y]. *)
Definition truthy (v : pyval) : bool :=
  match v with
  | PyNone => false
  | PyBool b => b
  | PyNum q => negb (Qeq_bool q 0)
  | PyStr s => negb (String.eqb s "")
  | PyList l => negb (Nat.eqb (length l) 0)
  | PyDict kv => negb (Nat.eqb (length kv) 0)
  end.

Definition py_or (x y : pyval) : pyval := if truthy x then x else y.

(** [d.get(k, default)]: only dicts have a [get] method. *)
Definition dict_get (d : pyval) (k : string) (default : pyval) : result pyval :=
  match d with
  | PyDict kv =>
      match assoc_lookup k kv with
      | Some v => Ok v
      | None => Ok default
      end
  | _ => Raise AttributeError
  end.

(** [d[k]] with a string key. *)
Definition dict_getitem (d : pyval) (k : string) : result pyval :=
  match d with
  | PyDict kv =>
      match assoc_lookup k kv with
      | Some v => Ok v
      | None => Raise KeyError
      end
  | _ => Raise TypeError
  end.

(** Iterating a value ([for x in v], [sorted(v)]). *)
Definition py_iter (v : pyval) : result (list pyval) :=
  match v with
  | PyList l => Ok l
  | PyStr s => Ok (map (fun c => PyStr (String c EmptyString)) (list_ascii_of_string s))
  | PyDict kv => Ok (map (fun p => PyStr (fst p)) kv)
  | _ => Raise TypeError
  end.

(* ------------------------------------------------------------------ *)
(** ** [float(x)] on exact rationals

    The conversion used with rationals covers plain decimal literals: an optional sign,
    digits, and an optional fractional part with at least one digit in
    total ("0.45", "-3", ".5", "7.").  Other spellings that Python also
    accepts (exponents, "inf", "nan", surrounding blanks, underscores) are
    outside this conversion and are treated as unparsable; [py_float64]
    below is CPython's full conversion. *)

Definition digit_value (c : ascii) : option Z :=
  let n := nat_of_ascii c in
  if (48 <=? n)%nat && (n <=? 57)%nat then Some (Z.of_nat (n - 48)) else None.

Fixpoint span_digits (l : list ascii) : list Z * list ascii :=
  match l with
  | [] => ([], [])
  | c :: rest =>
      match digit_value c with
      | Some d => let (ds, r) := span_digits rest in (d :: ds, r)
      | None => ([], l)
      end
  end.

Definition digits_to_Z (ds : list Z) : Z :=
  fold_left (fun acc d => (10 * acc + d)%Z) ds 0%Z.

Definition parse_unsigned (l : list ascii) : option Q :=
  let (ip, r1) := span_digits l in
  match r1 with
  | [] => match ip with [] => None | _ => Some (inject_Z (digits_to_Z ip)) end
  | c :: r2 =>
      if Ascii.eqb c "."%char then
        let (fp, r3) := span_digits r2 in
        match r3, app ip fp with
        | [], _ :: _ =>
            Some (Qmake (digits_to_Z (app ip fp)) (Z.to_pos (10 ^ Z.of_nat (length fp))))
        | _, _ => None
        end
      else None
  end.

Definition parse_decimal (s : string) : option Q :=
  match list_ascii_of_string s with
  | c :: rest =>
      if Ascii.eqb c "-"%char then option_map Qopp (parse_unsigned rest)
      else if Ascii.eqb c "+"%char then parse_unsigned rest
      else parse_unsigned (c :: rest)
  | [] => None
  end.

Definition py_float (v : pyval) : result Q :=
  match v with
  | PyStr s => match parse_decimal s with Some q => Ok q | None => Raise ValueError end
  | PyNum q => Ok q
  | PyBool b => Ok (if b then 1 else 0)
  | _ => Raise TypeError
  end.

(** [x < y] on rationals. *)
Definition Qltb (x y : Q) : bool := negb (Qle_bool y x).

(* ------------------------------------------------------------------ *)
(** ** Python floats as IEEE 754 binary64 values

    A double is a finite value, given by the rational it denotes, an
    infinity or NaN.  The sign of zero is not kept: [0.0] and [-0.0] are
    both [Fin 0]; the code never divides, so the sign of a zero can only
    show in output. *)

Inductive f64 : Type :=
| Fin (q : Q)
| Inf (neg : bool)
| NaN.

(** [2 ^ k] as a rational, for any integer [k]. *)
Definition pow2_Q (k : Z) : Q :=
  if (0 <=? k)%Z then inject_Z (2 ^ k) else 1 # Z.to_pos (2 ^ (- k)).

(** [a / b < 2 ^ k], for positive [a] and [b]. *)
Definition ratio_lt_pow2 (a b k : Z) : bool :=
  if (0 <=? k)%Z then (a <? b * 2 ^ k)%Z else (a * 2 ^ (- k) <? b)%Z.

(** [num / den] rounded to an integer, ties to even. *)
Definition round_half_even (num den : Z) : Z :=
  let qt := (num / den)%Z in
  match Z.compare (2 * (num mod den)) den with
  | Lt => qt
  | Gt => qt + 1
  | Eq => if Z.even qt then qt else qt + 1
  end%Z.

(** The double nearest to [a / b] ([a], [b] positive), negated when [neg]:
    a 53-bit significand times [2 ^ sh] with [-1074 <= sh], ties to an even
    significand, and an infinity past the largest finite double
    [(2 ^ 53 - 1) * 2 ^ 971]. *)
Definition round_pos (neg : bool) (a b : Z) : f64 :=
  let e0 := (Z.log2 a - Z.log2 b)%Z in
  let e := if ratio_lt_pow2 a b e0 then (e0 - 1)%Z else e0 in
  let sh := Z.max (e - 52) (-1074) in
  let m := if (sh <=? 0)%Z then round_half_even (a * 2 ^ (- sh)) b
           else round_half_even a (b * 2 ^ sh) in
  let '(m, sh) := if (m =? 2 ^ 53)%Z then (2 ^ 52, sh + 1)%Z else (m, sh) in
  if (971 <? sh)%Z then Inf neg
  else Fin (Qred (inject_Z (if neg then - m else m) * pow2_Q sh)).

(** Rounding a rational to the nearest double. *)
Definition round (q : Q) : f64 :=
  match Qnum q with
  | Z0 => Fin 0
  | Zpos p => round_pos false (Zpos p) (Zpos (Qden q))
  | Zneg p => round_pos true (Zpos p) (Zpos (Qden q))
  end.

Definition fneg (x : f64) : f64 :=
  match x with
  | Fin q => Fin (- q)
  | Inf s => Inf (negb s)
  | NaN => NaN
  end.

(** [x + y]: the exact sum rounded; infinities of opposite signs give NaN. *)
Definition fadd (x y : f64) : f64 :=
  match x, y with
  | NaN, _ | _, NaN => NaN
  | Inf s, Inf t => if Bool.eqb s t then Inf s else NaN
  | Inf s, Fin _ => Inf s
  | Fin _, Inf t => Inf t
  | Fin a, Fin b => round (a + b)
  end.

(** [x - y] is [x + (-y)]. *)
Definition fsub (x y : f64) : f64 := fadd x (fneg y).

(** [x * y]: the exact product rounded; an infinity times zero gives NaN. *)
Definition fmul (x y : f64) : f64 :=
  match x, y with
  | NaN, _ | _, NaN => NaN
  | Inf s, Inf t => Inf (xorb s t)
  | Inf s, Fin b | Fin b, Inf s =>
      if Qeq_bool b 0 then NaN else Inf (xorb s (Qltb b 0))
  | Fin a, Fin b => round (a * b)
  end.

(** [x < y]; every comparison with NaN is false. *)
Definition flt (x y : f64) : bool :=
  match x, y with
  | Fin a, Fin b => Qltb a b
  | Inf true, Fin _ | Inf true, Inf false | Fin _, Inf false => true
  | _, _ => false
  end.

(** [x <= y] *)
Definition fle (x y : f64) : bool :=
  match x, y with
  | NaN, _ | _, NaN => false
  | _, _ => negb (flt y x)
  end.

(* ------------------------------------------------------------------ *)
(** ** [float(s)] for a [str]

    CPython 3.11, [float_from_string]: the text is first mapped to ASCII
    ([_PyUnicode_TransformDecimalAndSpaceToASCII]), underscores are checked
    and removed ([_Py_string_to_number_with_underscores]), blanks are
    stripped at both ends ([Py_ISSPACE]), and what is left must be read
    completely by [_PyOS_ascii_strtod]: the decimal grammar of
    [_Py_dg_strtod], correctly rounded, or else [inf], [infinity] or [nan]
    in any case.  A Rocq string is read as a sequence of code points
    U+0000 to U+00FF, one [ascii] each. *)

(** One code point mapped to ASCII: below 127 it is kept, the two
    non-ASCII blanks of this range (U+0085, U+00A0) become a space, and any
    other character becomes '?', which no float literal contains. *)
Definition to_ascii_char (c : ascii) : ascii :=
  let n := nat_of_ascii c in
  if (n <? 127)%nat then c
  else if (n =? 133)%nat || (n =? 160)%nat then " "%char else "?"%char.

Definition is_digit (c : ascii) : bool :=
  match digit_value c with Some _ => true | None => false end.

(** [Py_ISSPACE]: space, tab, line feed, vertical tab, form feed, carriage return. *)
Definition py_isspace (c : ascii) : bool :=
  let n := nat_of_ascii c in
  (n =? 32)%nat || ((9 <=? n)%nat && (n <=? 13)%nat).

(** Each '_' follows a digit and is followed by a digit. *)
Fixpoint underscores_ok (prev : ascii) (l : list ascii) : bool :=
  match l with
  | [] => negb (Ascii.eqb prev "_")
  | c :: r =>
      (if Ascii.eqb c "_" then is_digit prev
       else if Ascii.eqb prev "_" then is_digit c else true)
      && underscores_ok c r
  end.

Fixpoint strip_leading (l : list ascii) : list ascii :=
  match l with
  | c :: r => if py_isspace c then strip_leading r else l
  | [] => []
  end.

(** An optional sign: [true] for '-'. *)
Definition sign_of (l : list ascii) : bool * list ascii :=
  match l with
  | c :: r =>
      if Ascii.eqb c "-" then (true, r)
      else if Ascii.eqb c "+" then (false, r) else (false, l)
  | [] => (false, [])
  end.

Fixpoint drop_zeros (ds : list Z) : list Z :=
  match ds with
  | 0%Z :: r => drop_zeros r
  | _ => ds
  end.

(** The value [m * 10 ^ e], [m] having [k] significant digits, as a double:
    past [10 ^ 400] it is an infinity and below [10 ^ -400] it is zero
    whatever its digits, so large exponents are not expanded. *)
Definition decimal_value (neg : bool) (m e : Z) (k : nat) : f64 :=
  if (m =? 0)%Z then Fin 0
  else if (400 <? e)%Z then Inf neg
  else if (e + Z.of_nat k <? -400)%Z then Fin 0
  else
    let sm := if neg then (- m)%Z else m in
    round (if (0 <=? e)%Z then inject_Z (sm * 10 ^ e) else sm # Z.to_pos (10 ^ (- e))).

(** The part after 'e' or 'E': an optional sign and at least one digit. *)
Definition parse_exponent (l : list ascii) : option (Z * list ascii) :=
  let '(neg, r) := sign_of l in
  match span_digits r with
  | ([], _) => None
  | (ds, r') => Some (if neg then (- digits_to_Z ds)%Z else digits_to_Z ds, r')
  end.

(** [_Py_dg_strtod] after the sign: [None] when it reads no digit (then
    the text may still be an infinity or NaN); [Some None] when it reads a
    number but not the whole text, or more than [10 ^ 9] digits. *)
Definition parse_finite (neg : bool) (l : list ascii) : option (option f64) :=
  let '(ip, r1) := span_digits l in
  let '(fp, r2) :=
    match r1 with
    | c :: r => if Ascii.eqb c "." then span_digits r else ([], r1)
    | [] => ([], [])
    end in
  match app ip fp with
  | [] => None
  | ds =>
      let k := length (drop_zeros ds) in
      if (1000000000 <? Z.of_nat k)%Z || (1000000000 <? Z.of_nat (length fp))%Z
      then Some None
      else
        let '(ex, r3) :=
          match r2 with
          | c :: r =>
              if Ascii.eqb c "e" || Ascii.eqb c "E" then
                match parse_exponent r with Some p => p | None => (0%Z, r2) end
              else (0%Z, r2)
          | [] => (0%Z, [])
          end in
        match r3 with
        | [] => Some (Some (decimal_value neg (digits_to_Z ds)
                                          (ex - Z.of_nat (length fp)) k))
        | _ => Some None
        end
  end.

(** ASCII lower case. *)
Definition ascii_lower (c : ascii) : ascii :=
  let n := nat_of_ascii c in
  if (65 <=? n)%nat && (n <=? 90)%nat then ascii_of_nat (n + 32) else c.

(** [w] at the start of [l], ignoring case: the rest of [l]. *)
Fixpoint ci_prefix (w : list ascii) (l : list ascii) : option (list ascii) :=
  match w, l with
  | [], _ => Some l
  | c :: w', d :: l' => if Ascii.eqb c (ascii_lower d) then ci_prefix w' l' else None
  | _ :: _, [] => None
  end.

(** [_Py_parse_inf_or_nan] after the sign, reading the whole text. *)
Definition parse_inf_nan (neg : bool) (l : list ascii) : option f64 :=
  match ci_prefix (list_ascii_of_string "inf") l with
  | Some r =>
      match r with
      | [] => Some (Inf neg)
      | _ => match ci_prefix (list_ascii_of_string "inity") r with
             | Some [] => Some (Inf neg)
             | _ => None
             end
      end
  | None =>
      match ci_prefix (list_ascii_of_string "nan") l with
      | Some [] => Some NaN
      | _ => None
      end
  end.

(** [_PyOS_ascii_strtod] on the stripped text, which it must read completely. *)
Definition parse_float_literal (l : list ascii) : option f64 :=
  let '(neg, r) := sign_of l in
  match parse_finite neg r with
  | Some res => res
  | None => parse_inf_nan neg r
  end.

(** [float(s)]: [None] where Python raises [ValueError]. *)
Definition float_of_text (s : string) : option f64 :=
  let l := map to_ascii_char (list_ascii_of_string s) in
  if underscores_ok "000"%char l then
    match strip_leading (filter (fun c => negb (Ascii.eqb c "_")) l) with
    | [] => None
    | l' => parse_float_literal (rev (strip_leading (rev l')))
    end
  else None.

(** [float(v)] with its IEEE result.  [PyNum q] with [q] an integer stands
    for a JSON integer: Python rounds it and raises [OverflowError] past
    the largest finite double.  Any other [PyNum q] stands for a JSON
    number with a fraction or an exponent, which [json] already reads as
    the double nearest to [q] (JSON literals beyond the double range, which
    [json] reads as an infinity, are not represented). *)
Definition py_float64 (v : pyval) : result f64 :=
  match v with
  | PyStr s => match float_of_text s with Some x => Ok x | None => Raise ValueError end
  | PyNum q =>
      if (Qden (Qred q) =? 1)%positive then
        match round q with Inf _ => Raise OverflowError | x => Ok x end
      else Ok (round q)
  | PyBool b => Ok (Fin (if b then 1 else 0))
  | _ => Raise TypeError
  end.

(* ------------------------------------------------------------------ *)
(** ** Python's stable sort

    [list.sort] / [sorted] with a [key] compute every key first (in list
    order, so the first failing key raises), then sort stably using only
    [<] on keys.  With [reverse=True] CPython reverses the list, sorts it
    stably ascending and reverses it again, which keeps equal keys in their
    input order.  Any stable sort gives the same output as timsort on a
    total order, so a stable insertion sort stands for it. *)

Section StableSort.
Context {A : Type} (key : A -> Q).

(** [x] goes in front of the first element whose key is not below it. *)
Fixpoint insert_stable (x : A) (l : list A) : list A :=
  match l with
  | [] => [x]
  | y :: ys => if Qltb (key y) (key x) then y :: insert_stable x ys else x :: l
  end.

Definition stable_sort (l : list A) : list A := fold_right insert_stable [] l.

Definition py_sort (reverse : bool) (l : list A) : list A :=
  if reverse then rev (stable_sort (rev l)) else stable_sort l.
End StableSort.

(* ------------------------------------------------------------------ *)
(** ** CPython's [list.sort]

    [listsort] (Objects/listobject.c, CPython 3.11) on fewer than 64 items,
    where [minrun] is the length of the list: [count_run] finds the run at
    the front (non-descending, or strictly descending and then reversed),
    and [binarysort] inserts every later item after the run by binary
    search, comparing only with [<].  Longer lists are cut into runs of
    [minrun] items sorted this way and then merged; as both phases are
    stable, they give the same result as this model whenever [<] is a
    strict weak order on the items, as it is on floats other than NaN. *)

Section ListSort.
Context {A : Type} (lt : A -> A -> bool).

Fixpoint asc_run (prev : A) (l : list A) : nat :=
  match l with
  | [] => 0
  | x :: r => if lt x prev then 0 else S (asc_run x r)
  end.

Fixpoint desc_run (prev : A) (l : list A) : nat :=
  match l with
  | [] => 0
  | x :: r => if lt x prev then S (desc_run x r) else 0
  end.

(** [count_run]: the length of the leading run and whether it descends. *)
Definition count_run (l : list A) : nat * bool :=
  match l with
  | x :: y :: r =>
      if lt y x then (S (S (desc_run y r)), true) else (S (S (asc_run y r)), false)
  | _ => (length l, false)
  end.

(** The binary search of [binarysort]: the place of [pivot] in the sorted
    prefix [pre], searched in [[lo, hi)]; after every item not greater
    than [pivot].  The loop runs at most [hi - lo] times, which [fuel]
    covers. *)
Fixpoint bs_loop (fuel : nat) (pivot : A) (pre : list A) (lo hi : nat) : nat :=
  match fuel with
  | O => lo
  | S fuel' =>
      if (lo <? hi)%nat then
        let p := (lo + (hi - lo) / 2)%nat in
        if lt pivot (nth p pre pivot) then bs_loop fuel' pivot pre lo p
        else bs_loop fuel' pivot pre (S p) hi
      else lo
  end.

Definition binsert (pivot : A) (pre : list A) : list A :=
  let i := bs_loop (length pre) pivot pre 0 (length pre) in
  firstn i pre ++ pivot :: skipn i pre.

Definition list_sort (l : list A) : list A :=
  let '(n, descending) := count_run l in
  let run := firstn n l in
  fold_left (fun acc x => binsert x acc) (skipn n l)
            (if descending then rev run else run).

(** [sort(reverse=True)] reverses the list, sorts it and reverses the result. *)
Definition py_list_sort (reverse : bool) (l : list A) : list A :=
  if reverse then rev (list_sort (rev l)) else list_sort l.
End ListSort.

(** [sorted(v, key=keyf, reverse=reverse)] with float keys: the list is
    built, every key computed in list order (the first failing key raises),
    and the (key, item) pairs sorted by [<] on the keys. *)
Definition py_sorted64 (keyf : pyval -> result f64) (reverse : bool) (v : pyval)
  : result (list pyval) :=
  let! xs := py_iter v in
  let! ks := mapM keyf xs in
  Ok (map snd (py_list_sort (fun a b => flt (fst a) (fst b)) reverse (combine ks xs))).

(* ------------------------------------------------------------------ *)
(** ** models.py: OrderBook *)

Record OrderBook : Type := mkOrderBook {
  bids : list pyval;
  asks : list pyval;
  token_id : string
}.

(** [lambda b: float(b.get("price", "0"))] *)
Definition price_sort_key (b : pyval) : result f64 :=
  let! p := dict_get b "price" (PyStr "0") in py_float64 p.

(** The dataclass constructor followed by [__post_init__]. *)
Definition OrderBook_new (bids0 asks0 : pyval) (token_id0 : string) : result OrderBook :=
  let! sorted_bids := py_sorted64 price_sort_key true bids0 in
  let! sorted_asks := py_sorted64 price_sort_key false asks0 in
  Ok (mkOrderBook sorted_bids sorted_asks token_id0).

(** [float(entry["price"])] and [float(entry["size"])] *)
Definition entry_price (e : pyval) : result Q :=
  let! p := dict_getitem e "price" in py_float p.

Definition entry_size (e : pyval) : result Q :=
  let! s := dict_getitem e "size" in py_float s.

Definition first_of (field : pyval -> result Q) (ladder : list pyval) : result (option Q) :=
  match ladder with
  | [] => Ok None
  | e :: _ => let! v := field e in Ok (Some v)
  end.

Definition best_bid (ob : OrderBook) : result (option Q) := first_of entry_price (bids ob).
Definition best_ask (ob : OrderBook) : result (option Q) := first_of entry_price (asks ob).
Definition best_bid_size (ob : OrderBook) : result (option Q) := first_of entry_size (bids ob).
Definition best_ask_size (ob : OrderBook) : result (option Q) := first_of entry_size (asks ob).

(** [OrderBook.from_api_response(data, token_id)] *)
Definition from_api_response (data : pyval) (token_id0 : string) : result OrderBook :=
  let! b := dict_get data "bids" (PyList []) in
  let! a := dict_get data "asks" (PyList []) in
  OrderBook_new (py_or b (PyList [])) (py_or a (PyList [])) token_id0.

(* ------------------------------------------------------------------ *)
(** ** models.py: Market and Opportunity *)

(** A token dict [{"token_id": ..., "outcome": ...}] as built by
    [Market.from_gamma_response]. *)
Record Token : Type := mkToken { tok_token_id : string; tok_outcome : string }.

Record Market : Type := mkMarket {
  condition_id : string;
  question : string;
  slug : string;
  tokens : list Token;
  active : bool;
  volume : Q;
  event_slug : string
}.

Record Opportunity : Type := mkOpportunity {
  market_question : string;
  arb_type : string;
  profit_pct : Q;
  max_size : Q;
  max_profit_usd : Q;
  yes_price : Q;
  no_price : Q;
  opp_event_slug : string
}.

(* ------------------------------------------------------------------ *)
(** ** Python builtins on possibly-[None] floats *)

(** [x < y]; comparing with [None] raises [TypeError]. *)
Definition py_lt (x y : option Q) : result bool :=
  match x, y with
  | Some a, Some b => Ok (Qltb a b)
  | _, _ => Raise TypeError
  end.

(** [min(a, b)]: keeps [a] unless [b < a]. *)
Definition py_min2 (a b : option Q) : result (option Q) :=
  let! c := py_lt b a in Ok (if c then b else a).

(** [min(iterable)]: the first item, replaced by each later item that is
    strictly smaller; an empty iterable raises [ValueError]. *)
Fixpoint py_min_from (cur : option Q) (l : list (option Q)) : result (option Q) :=
  match l with
  | [] => Ok cur
  | x :: xs => let! c := py_lt x cur in py_min_from (if c then x else cur) xs
  end.

Definition py_min (l : list (option Q)) : result (option Q) :=
  match l with
  | [] => Raise ValueError
  | x :: xs => py_min_from x xs
  end.

(** [sum(iterable)]: starts from [0] and adds left to right. *)
Fixpoint py_sum_from (acc : Q) (l : list (option Q)) : result Q :=
  match l with
  | [] => Ok acc
  | Some x :: xs => py_sum_from (acc + x) xs
  | None :: _ => Raise TypeError
  end.

Definition py_sum (l : list (option Q)) : result Q := py_sum_from 0 l.

(** [all(f(book) is not None for _, book in books)], short-circuiting. *)
Fixpoint py_all_not_none (f : OrderBook -> result (option Q))
    (books : list (string * OrderBook)) : result bool :=
  match books with
  | [] => Ok true
  | (_, b) :: rest =>
      let! v := f b in
      match v with
      | None => Ok false
      | Some _ => py_all_not_none f rest
      end
  end.

(** A float operand of [*]: [profit_pct * None] raises [TypeError]. *)
Definition as_float (x : option Q) : result Q :=
  match x with
  | Some q => Ok q
  | None => Raise TypeError
  end.

(* ------------------------------------------------------------------ *)
(** ** scanner.py: the arbitrage detector *)

(** [MIN_PROFIT_THRESHOLD] comes from config/scanner.py (environment
    variable, default 0.001); the detector and the scan take it as a
    parameter. *)
Definition DEFAULT_MIN_PROFIT_THRESHOLD : Q := 1 # 1000.

Section Detector.
Variable MIN_PROFIT_THRESHOLD : Q.

(** First block of [check_binary_arbitrage]: BUY arbitrage. *)
Definition binary_buy_block (market : Market) (yes_book no_book : OrderBook)
  : result (list Opportunity) :=
  let! yes_ask := best_ask yes_book in
  let! no_ask := best_ask no_book in
  match yes_ask, no_ask with
  | Some ya, Some na =>
      let combined_ask := ya + na in
      if Qltb combined_ask 1 then
        let profit := 1 - combined_ask in
        if Qle_bool MIN_PROFIT_THRESHOLD profit then
          let! ys := best_ask_size yes_book in
          let! ns := best_ask_size no_book in
          let! ms := py_min2 ys ns in
          let! m := as_float ms in
          Ok [mkOpportunity (question market) "BUY" profit m (profit * m)
                            ya na (event_slug market)]
        else Ok []
      else Ok []
  | _, _ => Ok []
  end.

(** Second block of [check_binary_arbitrage]: SELL arbitrage. *)
Definition binary_sell_block (market : Market) (yes_book no_book : OrderBook)
  : result (list Opportunity) :=
  let! yes_bid := best_bid yes_book in
  let! no_bid := best_bid no_book in
  match yes_bid, no_bid with
  | Some yb, Some nb =>
      let combined_bid := yb + nb in
      if Qltb 1 combined_bid then
        let profit := combined_bid - 1 in
        if Qle_bool MIN_PROFIT_THRESHOLD profit then
          let! ys := best_bid_size yes_book in
          let! ns := best_bid_size no_book in
          let! ms := py_min2 ys ns in
          let! m := as_float ms in
          Ok [mkOpportunity (question market) "SELL" profit m (profit * m)
                            yb nb (event_slug market)]
        else Ok []
      else Ok []
  | _, _ => Ok []
  end.

Definition check_binary_arbitrage (market : Market) (yes_book no_book : OrderBook)
  : result (list Opportunity) :=
  let! buy := binary_buy_block market yes_book no_book in
  let! sell := binary_sell_block market yes_book no_book in
  Ok (buy ++ sell).

Definition book_of (nb : string * OrderBook) : OrderBook := snd nb.

(** First block of [check_multi_outcome_arbitrage]: sum of asks < 1.0. *)
Definition multi_buy_block (market_question0 : string)
    (books : list (string * OrderBook)) (event_slug0 : string)
  : result (list Opportunity) :=
  let! all_asks_valid := py_all_not_none best_ask books in
  if all_asks_valid then
    let! ask_list := mapM (fun nb => best_ask (book_of nb)) books in
    let! sum_of_asks := py_sum ask_list in
    if Qltb sum_of_asks 1 then
      let profit := 1 - sum_of_asks in
      if Qle_bool MIN_PROFIT_THRESHOLD profit then
        let! sizes := mapM (fun nb => best_ask_size (book_of nb)) books in
        let! ms := py_min sizes in
        let! m := as_float ms in
        Ok [mkOpportunity market_question0 "MULTI" profit m (profit * m)
                          sum_of_asks 0 event_slug0]
      else Ok []
    else Ok []
  else Ok [].

(** Second block of [check_multi_outcome_arbitrage]: sum of bids > 1.0. *)
Definition multi_sell_block (market_question0 : string)
    (books : list (string * OrderBook)) (event_slug0 : string)
  : result (list Opportunity) :=
  let! all_bids_valid := py_all_not_none best_bid books in
  if all_bids_valid then
    let! bid_list := mapM (fun nb => best_bid (book_of nb)) books in
    let! sum_of_bids := py_sum bid_list in
    if Qltb 1 sum_of_bids then
      let profit := sum_of_bids - 1 in
      if Qle_bool MIN_PROFIT_THRESHOLD profit then
        let! sizes := mapM (fun nb => best_bid_size (book_of nb)) books in
        let! ms := py_min sizes in
        let! m := as_float ms in
        Ok [mkOpportunity market_question0 "MULTI" profit m (profit * m)
                          0 sum_of_bids event_slug0]
      else Ok []
    else Ok []
  else Ok [].

Definition check_multi_outcome_arbitrage (market_question0 : string)
    (books : list (string * OrderBook)) (event_slug0 : string)
  : result (list Opportunity) :=
  let! buy := multi_buy_block market_question0 books event_slug0 in
  let! sell := multi_sell_block market_question0 books event_slug0 in
  Ok (buy ++ sell).
End Detector.

(* ------------------------------------------------------------------ *)
(** ** scanner.py with IEEE doubles

    The detector once more, with prices, sizes and the threshold as
    doubles and every sum, difference and product rounded as Python rounds
    it.  The comparisons are those of the code: [<], [>] and [>=] on
    doubles, false whenever NaN is involved. *)

(** [float(entry["price"])] and [float(entry["size"])] *)
Definition entry_price64 (e : pyval) : result f64 :=
  let! p := dict_getitem e "price" in py_float64 p.

Definition entry_size64 (e : pyval) : result f64 :=
  let! s := dict_getitem e "size" in py_float64 s.

Definition first_of64 (field : pyval -> result f64) (ladder : list pyval)
  : result (option f64) :=
  match ladder with
  | [] => Ok None
  | e :: _ => let! v := field e in Ok (Some v)
  end.

Definition best_bid64 (ob : OrderBook) : result (option f64) := first_of64 entry_price64 (bids ob).
Definition best_ask64 (ob : OrderBook) : result (option f64) := first_of64 entry_price64 (asks ob).
Definition best_bid_size64 (ob : OrderBook) : result (option f64) := first_of64 entry_size64 (bids ob).
Definition best_ask_size64 (ob : OrderBook) : result (option f64) := first_of64 entry_size64 (asks ob).

(** [x < y]; comparing with [None] raises [TypeError]. *)
Definition py_lt64 (x y : option f64) : result bool :=
  match x, y with
  | Some a, Some b => Ok (flt a b)
  | _, _ => Raise TypeError
  end.

(** [min(a, b)]: keeps [a] unless [b < a]. *)
Definition py_min2_64 (a b : option f64) : result (option f64) :=
  let! c := py_lt64 b a in Ok (if c then b else a).

(** [min(iterable)]: the first item, replaced by each later item that is
    strictly smaller; an empty iterable raises [ValueError]. *)
Fixpoint py_min_from64 (cur : option f64) (l : list (option f64)) : result (option f64) :=
  match l with
  | [] => Ok cur
  | x :: xs => let! c := py_lt64 x cur in py_min_from64 (if c then x else cur) xs
  end.

Definition py_min64 (l : list (option f64)) : result (option f64) :=
  match l with
  | [] => Raise ValueError
  | x :: xs => py_min_from64 x xs
  end.

(** [all(f(book) is not None for _, book in books)], short-circuiting. *)
Fixpoint py_all_not_none64 (f : OrderBook -> result (option f64))
    (books : list (string * OrderBook)) : result bool :=
  match books with
  | [] => Ok true
  | (_, b) :: rest =>
      let! v := f b in
      match v with
      | None => Ok false
      | Some _ => py_all_not_none64 f rest
      end
  end.

(** A float operand: [None] in [sum] or in [*] raises [TypeError]. *)
Definition as_float64 (x : option f64) : result f64 :=
  match x with
  | Some q => Ok q
  | None => Raise TypeError
  end.

(** [sum] of floats as CPython up to 3.11 computes it: from [0], adding
    left to right.  CPython 3.12 and later also carry a compensation term,
    so the detector below takes the summation as a parameter. *)
Definition sum_left (xs : list f64) : f64 := fold_left fadd xs (Fin 0).

Record Opportunity64 : Type := mkOpportunity64 {
  market_question64 : string;
  arb_type64 : string;
  profit_pct64 : f64;
  max_size64 : f64;
  max_profit_usd64 : f64;
  yes_price64 : f64;
  no_price64 : f64;
  opp_event_slug64 : string
}.

(** [float("0.001")], the default of [MIN_PROFIT_THRESHOLD]. *)
Definition DEFAULT_MIN_PROFIT_THRESHOLD64 : f64 := round (1 # 1000).

Section Detector64.
Variable MIN_PROFIT_THRESHOLD : f64.
(** [sum(...)] on a list of floats. *)
Variable float_sum : list f64 -> f64.

Definition binary_buy_block64 (market : Market) (yes_book no_book : OrderBook)
  : result (list Opportunity64) :=
  let! yes_ask := best_ask64 yes_book in
  let! no_ask := best_ask64 no_book in
  match yes_ask, no_ask with
  | Some ya, Some na =>
      let combined_ask := fadd ya na in
      if flt combined_ask (Fin 1) then
        let profit := fsub (Fin 1) combined_ask in
        if fle MIN_PROFIT_THRESHOLD profit then
          let! ys := best_ask_size64 yes_book in
          let! ns := best_ask_size64 no_book in
          let! ms := py_min2_64 ys ns in
          let! m := as_float64 ms in
          Ok [mkOpportunity64 (question market) "BUY" profit m (fmul profit m)
                              ya na (event_slug market)]
        else Ok []
      else Ok []
  | _, _ => Ok []
  end.

Definition binary_sell_block64 (market : Market) (yes_book no_book : OrderBook)
  : result (list Opportunity64) :=
  let! yes_bid := best_bid64 yes_book in
  let! no_bid := best_bid64 no_book in
  match yes_bid, no_bid with
  | Some yb, Some nb =>
      let combined_bid := fadd yb nb in
      if flt (Fin 1) combined_bid then
        let profit := fsub combined_bid (Fin 1) in
        if fle MIN_PROFIT_THRESHOLD profit then
          let! ys := best_bid_size64 yes_book in
          let! ns := best_bid_size64 no_book in
          let! ms := py_min2_64 ys ns in
          let! m := as_float64 ms in
          Ok [mkOpportunity64 (question market) "SELL" profit m (fmul profit m)
                              yb nb (event_slug market)]
        else Ok []
      else Ok []
  | _, _ => Ok []
  end.

Definition check_binary_arbitrage64 (market : Market) (yes_book no_book : OrderBook)
  : result (list Opportunity64) :=
  let! buy := binary_buy_block64 market yes_book no_book in
  let! sell := binary_sell_block64 market yes_book no_book in
  Ok (buy ++ sell).

Definition multi_buy_block64 (market_question0 : string)
    (books : list (string * OrderBook)) (event_slug0 : string)
  : result (list Opportunity64) :=
  let! all_asks_valid := py_all_not_none64 best_ask64 books in
  if all_asks_valid then
    let! ask_list := mapM (fun nb => best_ask64 (book_of nb)) books in
    let! asks0 := mapM as_float64 ask_list in
    let sum_of_asks := float_sum asks0 in
    if flt sum_of_asks (Fin 1) then
      let profit := fsub (Fin 1) sum_of_asks in
      if fle MIN_PROFIT_THRESHOLD profit then
        let! sizes := mapM (fun nb => best_ask_size64 (book_of nb)) books in
        let! ms := py_min64 sizes in
        let! m := as_float64 ms in
        Ok [mkOpportunity64 market_question0 "MULTI" profit m (fmul profit m)
                            sum_of_asks (Fin 0) event_slug0]
      else Ok []
    else Ok []
  else Ok [].

Definition multi_sell_block64 (market_question0 : string)
    (books : list (string * OrderBook)) (event_slug0 : string)
  : result (list Opportunity64) :=
  let! all_bids_valid := py_all_not_none64 best_bid64 books in
  if all_bids_valid then
    let! bid_list := mapM (fun nb => best_bid64 (book_of nb)) books in
    let! bids1 := mapM as_float64 bid_list in
    let sum_of_bids := float_sum bids1 in
    if flt (Fin 1) sum_of_bids then
      let profit := fsub sum_of_bids (Fin 1) in
      if fle MIN_PROFIT_THRESHOLD profit then
        let! sizes := mapM (fun nb => best_bid_size64 (book_of nb)) books in
        let! ms := py_min64 sizes in
        let! m := as_float64 ms in
        Ok [mkOpportunity64 market_question0 "MULTI" profit m (fmul profit m)
                            (Fin 0) sum_of_bids event_slug0]
      else Ok []
    else Ok []
  else Ok [].

Definition check_multi_outcome_arbitrage64 (market_question0 : string)
    (books : list (string * OrderBook)) (event_slug0 : string)
  : result (list Opportunity64) :=
  let! buy := multi_buy_block64 market_question0 books event_slug0 in
  let! sell := multi_sell_block64 market_question0 books event_slug0 in
  Ok (buy ++ sell).
End Detector64.

(* ------------------------------------------------------------------ *)
(** ** api.py: fetch_orderbook and fetch_orderbooks_batch *)

(** What the transport produces for one [GET /book] request. *)
Inductive Response : Type :=
| Timeout                       (** [httpx.TimeoutException] *)
| StatusError (code : Z)        (** [raise_for_status()] raises [HTTPStatusError] *)
| TransportError                (** any other [httpx.HTTPError] *)
| Body (json : option pyval).   (** 2xx; [None] when [response.json()] fails *)

(** The exceptions listed in the last [except] clause of [fetch_orderbook]. *)
Definition parse_error_caught (e : exn) : bool :=
  match e with
  | JSONDecodeError | KeyError | ValueError | TypeError => true
  | AttributeError | OverflowError => false
  end.

Definition fetch_orderbook (token_id0 : string) (resp : Response)
  : result (option OrderBook) :=
  match resp with
  | Timeout | StatusError _ | TransportError => Ok None
  | Body None => Ok None
  | Body (Some data) =>
      match from_api_response data token_id0 with
      | Ok ob => Ok (Some ob)
      | Raise e => if parse_error_caught e then Ok None else Raise e
      end
  end.

(** The transport: the response to the [i]-th request of a batch, asking
    for token [t].  Indexing by position lets two requests for the same
    token receive different responses. *)
Definition Client : Type := nat -> string -> Response.

(** [asyncio.gather] over [_fetch_with_semaphore]: results in input order;
    an exception in any task propagates out of [gather].  The semaphore
    only bounds concurrency and does not change the results. *)
Fixpoint gather_fetch (client : Client) (i : nat) (token_ids : list string)
  : result (list (string * option OrderBook)) :=
  match token_ids with
  | [] => Ok []
  | t :: ts =>
      let! ob := fetch_orderbook t (client i t) in
      let! rest := gather_fetch client (S i) ts in
      Ok ((t, ob) :: rest)
  end.

(** A Python dict as an insertion-ordered association list:
    [d[k] = v] replaces the value in place when [k] is present and
    appends otherwise. *)
Fixpoint dict_setitem {V : Type} (d : list (string * V)) (k : string) (v : V)
  : list (string * V) :=
  match d with
  | [] => [(k, v)]
  | (k', v') :: rest =>
      if String.eqb k k' then (k', v) :: rest else (k', v') :: dict_setitem rest k v
  end.

(** [{token_id: orderbook for token_id, orderbook in results if orderbook is not None}] *)
Definition dict_of_results (results : list (string * option OrderBook))
  : list (string * OrderBook) :=
  fold_left (fun d p => match snd p with
                        | Some ob => dict_setitem d (fst p) ob
                        | None => d
                        end) results [].

Definition fetch_orderbooks_batch (client : Client) (token_ids : list string)
  : result (list (string * OrderBook)) :=
  let! results := gather_fetch client 0 token_ids in
  Ok (dict_of_results results).

(* ------------------------------------------------------------------ *)
(** ** scanner.py: scan_markets *)


(** The [for token in market.tokens] loop of the multi-outcome branch:
    [None] when it hits a missing book and breaks. *)
Fixpoint collect_books (orderbooks : list (string * OrderBook)) (toks : list Token)
  : option (list (string * OrderBook)) :=
  match toks with
  | [] => Some []
  | t :: ts =>
      match assoc_lookup (tok_token_id t) orderbooks with
      | None => None
      | Some book =>
          match collect_books orderbooks ts with
          | None => None
          | Some rest => Some ((tok_outcome t, book) :: rest)
          end
      end
  end.

Section Scan.
Variable MIN_PROFIT_THRESHOLD : Q.

(** One iteration of the [for market in markets] loop: the opportunities
    that [opportunities.extend] receives ([[]] on [continue]). *)
Definition scan_market (orderbooks : list (string * OrderBook)) (market : Market)
  : result (list Opportunity) :=
  match tokens market with
  | [yes_tok; no_tok] =>
      match assoc_lookup (tok_token_id yes_tok) orderbooks,
            assoc_lookup (tok_token_id no_tok) orderbooks with
      | Some yes_book, Some no_book =>
          check_binary_arbitrage MIN_PROFIT_THRESHOLD market yes_book no_book
      | _, _ => Ok []
      end
  | _ :: _ :: _ :: _ =>
      match collect_books orderbooks (tokens market) with
      | None => Ok []
      | Some books =>
          check_multi_outcome_arbitrage MIN_PROFIT_THRESHOLD
            (question market) books (event_slug market)
      end
  | _ => Ok []
  end.


End Scan.

(* ------------------------------------------------------------------ *)
(** ** models.py: Market.from_gamma_response *)

(** The value of [events[0].get("slug", "") if events else ""]. *)
Definition event_slug_of (events : pyval) : result pyval :=
  if truthy events then
    match events with
    | PyList (e :: _) => dict_get e "slug" (PyStr "")
    (* [events[0]] of a non-empty str is a one-character str: no [get]. *)
    | PyStr _ => Raise AttributeError
    (* [events[0]] of a dict looks up the int key 0 among str keys. *)
    | PyDict _ => Raise KeyError
    (* numbers and booleans are not subscriptable. *)
    | _ => Raise TypeError
    end
  else Ok (PyStr "").

(** [zip(a, b)]: both iterators are built first, then paired up to the
    shorter length. *)
Definition py_zip (a b : pyval) : result (list (pyval * pyval)) :=
  let! xs := py_iter a in
  let! ys := py_iter b in
  Ok (combine xs ys).

(** [{"token_id": tid, "outcome": outcome}] *)
Definition token_dict (p : pyval * pyval) : pyval :=
  PyDict [("token_id", fst p); ("outcome", snd p)].

(** A [Market] as [from_gamma_response] builds it: the dataclass does not
    check its field types, so the fields hold whatever the payload held. *)
Record GammaMarket : Type := mkGammaMarket {
  gm_condition_id : pyval;
  gm_question : pyval;
  gm_slug : pyval;
  gm_tokens : list pyval;
  gm_active : pyval;
  gm_volume : f64;
  gm_event_slug : pyval
}.

(** The exceptions listed by the [except] clause of [from_gamma_response]
    ([json.JSONDecodeError] is a [ValueError]). *)
Definition gamma_error_caught (e : exn) : bool :=
  match e with
  | KeyError | JSONDecodeError | ValueError | TypeError => true
  | AttributeError | OverflowError => false
  end.

Section Gamma.
(** The JSON text parser behind [json.loads]: [None] for a text that is
    not JSON (raising [JSONDecodeError]). *)
Variable json_parse : string -> option pyval.

(** [json.loads(v)]: only a [str] argument is parsed. *)
Definition json_loads (v : pyval) : result pyval :=
  match v with
  | PyStr s => match json_parse s with Some x => Ok x | None => Raise JSONDecodeError end
  | _ => Raise TypeError
  end.

(** The body of the [try] block of [from_gamma_response]. *)
Definition from_gamma_body (data : pyval) : result GammaMarket :=
  let! condition_id := dict_getitem data "conditionId" in
  let! question0 := dict_getitem data "question" in
  let! slug0 := dict_get data "slug" (PyStr "") in
  let! active0 := dict_get data "active" (PyBool false) in
  let! v := dict_get data "volume" (PyNum 0) in
  let! volume0 := py_float64 v in
  let! events := dict_get data "events" (PyList []) in
  let! event_slug0 := event_slug_of events in
  let! ids_raw := dict_getitem data "clobTokenIds" in
  let! token_ids := json_loads ids_raw in
  let! outcome_prices_raw := dict_get data "outcomePrices" (PyStr "[]") in
  let! _ := json_loads outcome_prices_raw in
  let! outcomes_raw := dict_get data "outcomes" (PyStr "[]") in
  let! outcomes := json_loads outcomes_raw in
  let! pairs := py_zip token_ids outcomes in
  Ok (mkGammaMarket condition_id question0 slug0 (map token_dict pairs)
                    active0 volume0 event_slug0).

Definition from_gamma_response (data : pyval) : result (option GammaMarket) :=
  match from_gamma_body data with
  | Ok m => Ok (Some m)
  | Raise e => if gamma_error_caught e then Ok None else Raise e
  end.

(** ** api.py: fetch_active_markets

    From the decoded body of the Gamma response on: the request and
    [raise_for_status] are not modelled. *)
Variable MIN_VOLUME : f64.

Fixpoint active_markets_loop (raws : list pyval) : result (list GammaMarket) :=
  match raws with
  | [] => Ok []
  | raw :: rest =>
      let! v := dict_get raw "volume" (PyNum 0) in
      let! volume0 := py_float64 v in
      if flt volume0 MIN_VOLUME then active_markets_loop rest
      else
        let! clob_token_ids := dict_get raw "clobTokenIds" PyNone in
        if negb (truthy clob_token_ids) then active_markets_loop rest
        else
          let! market := from_gamma_response raw in
          let! markets := active_markets_loop rest in
          Ok (match market with Some m => m :: markets | None => markets end)
  end.

Definition fetch_active_markets (raw_markets : pyval) : result (list GammaMarket) :=
  let! raws := py_iter raw_markets in
  active_markets_loop raws.
End Gamma.

(* ------------------------------------------------------------------ *)
(** ** cli.py: format_table and the report of run *)

Definition COLUMN_MARKET_WIDTH : nat := 50.
Definition COLUMN_TYPE_WIDTH : nat := 6.
Definition COLUMN_PROFIT_WIDTH : nat := 9.
Definition COLUMN_YES_WIDTH : nat := 9.
Definition COLUMN_NO_WIDTH : nat := 9.
Definition COLUMN_SIZE_WIDTH : nat := 12.
Definition COLUMN_MAX_PROFIT_WIDTH : nat := 14.

(** [c * n] for a one-character string [c]. *)
Fixpoint repeat_char (c : ascii) (n : nat) : string :=
  match n with
  | O => EmptyString
  | S k => String c (repeat_char c k)
  end.

(** [f"{s:<w}"] and [f"{s:>w}"]: pad with blanks up to width [w]. *)
Definition ljust (w : nat) (s : string) : string :=
  (s ++ repeat_char " "%char (w - String.length s))%string.

Definition rjust (w : nat) (s : string) : string :=
  (repeat_char " "%char (w - String.length s) ++ s)%string.

Definition newline : string := String "010"%char EmptyString.

(** [sep.join(parts)] *)
Definition py_join (sep : string) (parts : list string) : string :=
  match parts with
  | [] => EmptyString
  | p :: ps => fold_left (fun acc x => (acc ++ sep ++ x)%string) ps p
  end.



Section Format.
(** [format(x, f".{p}f")]: fixed-point rendering of a float with [p]
    decimals; the width of each cell is applied by [rjust]. *)
Variable format_fixed : nat -> Q -> string.

Definition header : string :=
  (ljust COLUMN_MARKET_WIDTH "Market" ++ " "
   ++ rjust COLUMN_TYPE_WIDTH "Type" ++ " "
   ++ rjust COLUMN_PROFIT_WIDTH "Profit %" ++ " "
   ++ rjust COLUMN_YES_WIDTH "YES Price" ++ " "
   ++ rjust COLUMN_NO_WIDTH "NO Price" ++ " "
   ++ rjust COLUMN_SIZE_WIDTH "Max Size" ++ " "
   ++ rjust COLUMN_MAX_PROFIT_WIDTH "Max Profit USD")%string.

(** [market_name], truncated to the column width. *)
Definition market_cell (market_name : string) : string :=
  if Nat.ltb COLUMN_MARKET_WIDTH (String.length market_name)
  then (substring 0 (COLUMN_MARKET_WIDTH - 3) market_name ++ "...")%string
  else market_name.

Definition format_row (opp : Opportunity) : string :=
  (ljust COLUMN_MARKET_WIDTH (market_cell (market_question opp)) ++ " "
   ++ rjust COLUMN_TYPE_WIDTH (arb_type opp) ++ " "
   ++ rjust COLUMN_PROFIT_WIDTH (format_fixed 2 (profit_pct opp * 100)) ++ " "
   ++ rjust COLUMN_YES_WIDTH (format_fixed 4 (yes_price opp)) ++ " "
   ++ rjust COLUMN_NO_WIDTH (format_fixed 4 (no_price opp)) ++ " "
   ++ rjust COLUMN_SIZE_WIDTH (format_fixed 2 (max_size opp)) ++ " "
   ++ rjust COLUMN_MAX_PROFIT_WIDTH (format_fixed 2 (max_profit_usd opp)))%string.

Definition format_table (opportunities : list Opportunity) : string :=
  let separator := repeat_char "-"%char (String.length header) in
  py_join newline (header :: separator :: map format_row opportunities).

End Format.

(* ------------------------------------------------------------------ *)
(** ** Vocabulary of the properties *)

(** A gathered result whose retrieval succeeded. *)
Definition is_success (p : string * option OrderBook) : bool :=
  match snd p with Some _ => true | None => false end.

(** The book of the last successful retrieval of [k] in [results]. *)
Definition last_success (k : string) (results : list (string * option OrderBook))
  : option OrderBook :=
  fold_left (fun acc p => if String.eqb k (fst p)
                          then match snd p with Some ob => Some ob | None => acc end
                          else acc) results None.

(** Transports used by the concrete checks below. *)
Definition empty_book_json : pyval :=
  PyDict [("bids", PyList []); ("asks", PyList [])].

Definition one_ask_json (price size : string) : pyval :=
  PyDict [("bids", PyList []);
          ("asks", PyList [PyDict [("price", PyStr price); ("size", PyStr size)]])].

(** Every request answered with an empty book. *)
Definition empty_book_client : Client := fun _ _ => Body (Some empty_book_json).

(** The first request gets one book, later ones another. *)
Definition changing_client : Client :=
  fun i _ => match i with
             | O => Body (Some (one_ask_json "0.40" "10"))
             | S _ => Body (Some (one_ask_json "0.60" "20"))
             end.

(** The request for token "b" times out; the others get an empty book. *)
Definition partial_client : Client :=
  fun _ t => if String.eqb t "b" then Timeout else Body (Some empty_book_json).

(** A ladder entry as the spec's data model has it: a dict whose "price"
    and "size" both convert with [float]. *)
Definition entry_wf (e : pyval) : Prop :=
  (exists p, entry_price e = Ok p) /\ (exists s, entry_size e = Ok s).

Definition book_wf (ob : OrderBook) : Prop :=
  Forall entry_wf (bids ob) /\ Forall entry_wf (asks ob).

Definition price_entry (price size : string) : pyval :=
  PyDict [("price", PyStr price); ("size", PyStr size)].

Definition is_buy64 (o : Opportunity64) : bool := String.eqb (arb_type64 o) "BUY".
Definition is_sell64 (o : Opportunity64) : bool := String.eqb (arb_type64 o) "SELL".

(** A book with no bids and no asks. *)
Definition empty_book (t : string) : OrderBook := mkOrderBook [] [] t.

(** One-level books used by the concrete checks below. *)
Definition ask_book (price size t : string) : OrderBook :=
  mkOrderBook [] [price_entry price size] t.

Definition bid_book (price size t : string) : OrderBook :=
  mkOrderBook [price_entry price size] [] t.

(** Three outcomes, each offered at 0.30, with sizes 50, 60 and 70. *)
Definition three_asks_books : list (string * OrderBook) :=
  [("A", ask_book "0.30" "50" "a"); ("B", ask_book "0.30" "60" "b");
   ("C", ask_book "0.30" "70" "c")].

(** Three outcomes, each bid at 0.40, with sizes 30, 20 and 40. *)
Definition three_bids_books : list (string * OrderBook) :=
  [("A", bid_book "0.40" "30" "a"); ("B", bid_book "0.40" "20" "b");
   ("C", bid_book "0.40" "40" "c")].



(** A JSON parser given by a table of texts, for the concrete checks. *)
Definition table_json_parse (table : list (string * pyval)) (s : string) : option pyval :=
  assoc_lookup s table.

(** A JSON string literal: the text between double quotes. *)
Definition json_str (s : string) : string :=
  (String "034"%char EmptyString ++ s ++ String "034"%char EmptyString)%string.

(** The texts [["t1", "t2", "t3"]] and [["Yes", "No"]]. *)
Definition ids3_json : string :=
  ("[" ++ json_str "t1" ++ ", " ++ json_str "t2" ++ ", " ++ json_str "t3" ++ "]")%string.

Definition yes_no_json : string :=
  ("[" ++ json_str "Yes" ++ ", " ++ json_str "No" ++ "]")%string.

Definition sample_json : list (string * pyval) :=
  [("[]", PyList []); (ids3_json, PyList [PyStr "t1"; PyStr "t2"; PyStr "t3"]);
   (yes_no_json, PyList [PyStr "Yes"; PyStr "No"])].

(** [subseq l1 l2]: [l1] is [l2] with some elements left out, in order. *)
Inductive subseq {A : Type} : list A -> list A -> Prop :=
| subseq_nil : subseq [] []
| subseq_skip (x : A) (l1 l2 : list A) : subseq l1 l2 -> subseq l1 (x :: l2)
| subseq_take (x : A) (l1 l2 : list A) : subseq l1 l2 -> subseq (x :: l1) (x :: l2).

(** The number of occurrences of a character in a string. *)
Fixpoint count_char (c : ascii) (s : string) : nat :=
  match s with
  | EmptyString => 0
  | String c' s' => (if Ascii.eqb c c' then 1 else 0) + count_char c s'
  end.

(** The line-break character. *)
Definition nl_char : ascii := "010"%char.

(** A fixed-point renderer for the concrete checks. *)
Definition fixed_zero (p : nat) (x : Q) : string := "0.00".


(* ================================================================== *)
(** * Properties *)

(** ** Arithmetic and monad helpers *)

Lemma Qltb_true (x y : Q) : Qltb x y = true <-> x < y.
Proof.
  unfold Qltb. rewrite negb_true_iff. split; intro H.
  - apply Qnot_le_lt. intro Hle. apply Qle_bool_iff in Hle. congruence.
  - destruct (Qle_bool y x) eqn:E; [|reflexivity].
    apply Qle_bool_iff in E. exfalso. apply (Qlt_not_le x y); assumption.
Qed.

Lemma Qltb_false (x y : Q) : Qltb x y = false <-> y <= x.
Proof.
  unfold Qltb. rewrite negb_false_iff. apply Qle_bool_iff.
Qed.


Lemma mapM_length {A B : Type} (f : A -> result B) (l : list A) (ys : list B) :
  mapM f l = Ok ys -> length ys = length l.
Proof.
  revert ys. induction l as [|x xs IH]; simpl; intros ys H.
  - injection H as <-. reflexivity.
  - destruct (f x) as [y|e]; [|discriminate]. simpl in H.
    destruct (mapM f xs) as [ys'|e] eqn:E; [|discriminate]. simpl in H.
    injection H as <-. simpl. rewrite (IH ys' eq_refl). reflexivity.
Qed.

(** ** The stable sort *)

Section SortProperties.
Context {A : Type} (key : A -> Q).

Let R (a b : A) : Prop := key a <= key b.

Lemma insert_stable_perm (x : A) (l : list A) :
  Permutation (insert_stable key x l) (x :: l).
Proof.
  induction l as [|y ys IH]; simpl; [reflexivity|].
  destruct (Qltb (key y) (key x)); [|reflexivity].
  rewrite IH. apply perm_swap.
Qed.

Lemma stable_sort_perm (l : list A) : Permutation (stable_sort key l) l.
Proof.
  induction l as [|x xs IH]; simpl; [reflexivity|].
  rewrite insert_stable_perm. now apply perm_skip.
Qed.

Lemma insert_stable_hdrel (y x : A) (l : list A) :
  HdRel R y l -> R y x -> HdRel R y (insert_stable key x l).
Proof.
  intros Hh Hyx. destruct l as [|z zs]; simpl.
  - now constructor.
  - destruct (Qltb (key z) (key x)); [|now constructor].
    inversion Hh; now constructor.
Qed.

Lemma insert_stable_sorted (x : A) (l : list A) :
  Sorted R l -> Sorted R (insert_stable key x l).
Proof.
  induction 1 as [|y ys Hs IH Hh]; simpl.
  - repeat constructor.
  - destruct (Qltb (key y) (key x)) eqn:E.
    + constructor; [exact IH|].
      apply insert_stable_hdrel; [exact Hh|].
      apply Qltb_true in E. unfold R. now apply Qlt_le_weak.
    + constructor; [now constructor|].
      constructor. apply Qltb_false in E. exact E.
Qed.

Lemma stable_sort_sorted (l : list A) : StronglySorted R (stable_sort key l).
Proof.
  apply Sorted_StronglySorted.
  - intros a b c Hab Hbc. unfold R in *. now apply Qle_trans with (key b).
  - induction l as [|x xs IH]; simpl; [constructor|].
    now apply insert_stable_sorted.
Qed.

(** Elements of one key keep their relative order through an insertion. *)
Lemma insert_stable_filter (p : Q) (x : A) (l : list A) :
  filter (fun a => Qeq_bool (key a) p) (insert_stable key x l)
  = filter (fun a => Qeq_bool (key a) p) (x :: l).
Proof.
  induction l as [|y ys IH]; simpl; [reflexivity|].
  destruct (Qltb (key y) (key x)) eqn:E; [|reflexivity].
  apply Qltb_true in E. simpl. rewrite IH. simpl.
  destruct (Qeq_bool (key x) p) eqn:Ex, (Qeq_bool (key y) p) eqn:Ey; try reflexivity.
  apply Qeq_bool_iff in Ex, Ey. exfalso.
  apply (Qlt_irrefl (key x)). rewrite Ex at 1. rewrite <- Ey. exact E.
Qed.

Lemma stable_sort_filter (p : Q) (l : list A) :
  filter (fun a => Qeq_bool (key a) p) (stable_sort key l)
  = filter (fun a => Qeq_bool (key a) p) l.
Proof.
  induction l as [|x xs IH]; simpl; [reflexivity|].
  rewrite insert_stable_filter. simpl. now rewrite IH.
Qed.

Lemma StronglySorted_snoc (S : A -> A -> Prop) (l : list A) (a : A) :
  StronglySorted S l -> Forall (fun x => S x a) l -> StronglySorted S (l ++ [a]).
Proof.
  induction 1 as [|y ys Hs IH Hf]; simpl; intros Ha.
  - repeat constructor.
  - inversion Ha as [|? ? Hya Hys]; subst. constructor.
    + now apply IH.
    + apply Forall_app. split; [exact Hf|]. now constructor.
Qed.

Lemma StronglySorted_rev (S : A -> A -> Prop) (l : list A) :
  StronglySorted S l -> StronglySorted (fun a b => S b a) (rev l).
Proof.
  induction 1 as [|y ys Hs IH Hf]; simpl; [constructor|].
  apply StronglySorted_snoc; [exact IH|].
  apply Forall_rev. exact Hf.
Qed.


Lemma py_sort_forward_spec (l : list A) :
  StronglySorted (fun a b => key a <= key b) (py_sort key false l)
  /\ Permutation (py_sort key false l) l
  /\ forall p, filter (fun a => Qeq_bool (key a) p) (py_sort key false l)
               = filter (fun a => Qeq_bool (key a) p) l.
Proof.
  unfold py_sort. split; [|split].
  - apply stable_sort_sorted.
  - apply stable_sort_perm.
  - intro p. apply stable_sort_filter.
Qed.
End SortProperties.

(** ** The result dict of [fetch_orderbooks_batch] *)

Lemma dict_setitem_lookup {V : Type} (d : list (string * V)) (k k' : string) (v : V) :
  assoc_lookup k' (dict_setitem d k v)
  = if String.eqb k' k then Some v else assoc_lookup k' d.
Proof.
  induction d as [|[k0 v0] rest IH]; simpl; [reflexivity|].
  destruct (String.eqb k k0) eqn:E0; simpl.
  - apply String.eqb_eq in E0. subst k0. destruct (String.eqb k' k); reflexivity.
  - destruct (String.eqb k' k0) eqn:E1; rewrite ?IH; [|reflexivity].
    apply String.eqb_eq in E1. subst k0.
    destruct (String.eqb k' k) eqn:E2; [|reflexivity].
    apply String.eqb_eq in E2. subst k. rewrite String.eqb_refl in E0. discriminate.
Qed.

Lemma dict_setitem_keys_old {V : Type} (d : list (string * V)) (k : string) (v : V) :
  In k (map fst d) -> map fst (dict_setitem d k v) = map fst d.
Proof.
  induction d as [|[k0 v0] rest IH]; simpl; [tauto|]. intros H.
  destruct (String.eqb k k0) eqn:E; simpl; [reflexivity|].
  rewrite IH; [reflexivity|].
  destruct H as [H|H]; [|exact H].
  subst k0. rewrite String.eqb_refl in E. discriminate.
Qed.

Lemma dict_setitem_keys_new {V : Type} (d : list (string * V)) (k : string) (v : V) :
  ~ In k (map fst d) -> map fst (dict_setitem d k v) = map fst d ++ [k].
Proof.
  induction d as [|[k0 v0] rest IH]; simpl; [reflexivity|]. intros H.
  destruct (String.eqb k k0) eqn:E.
  - apply String.eqb_eq in E. subst k0. exfalso. apply H. now left.
  - simpl. rewrite IH; [reflexivity|]. intro Hin. apply H. now right.
Qed.

Lemma dict_setitem_nodup {V : Type} (d : list (string * V)) (k : string) (v : V) :
  NoDup (map fst d) -> NoDup (map fst (dict_setitem d k v)).
Proof.
  intros Hnd. destruct (in_dec string_dec k (map fst d)) as [Hin|Hout].
  - now rewrite dict_setitem_keys_old.
  - rewrite dict_setitem_keys_new by exact Hout.
    apply NoDup_app; [exact Hnd | repeat constructor; simpl; tauto |].
    intros x Hx [Hk|[]]. subst x. exact (Hout Hx).
Qed.

Lemma dict_setitem_keys_in {V : Type} (d : list (string * V)) (k x : string) (v : V) :
  In x (map fst (dict_setitem d k v)) -> x = k \/ In x (map fst d).
Proof.
  destruct (in_dec string_dec k (map fst d)) as [Hin|Hout].
  - rewrite dict_setitem_keys_old by exact Hin. now right.
  - rewrite dict_setitem_keys_new by exact Hout.
    intros Hx. apply in_app_or in Hx. destruct Hx as [Hx|[Hx|[]]]; [now right | now left].
Qed.

Definition results_step (d : list (string * OrderBook)) (p : string * option OrderBook)
  : list (string * OrderBook) :=
  match snd p with
  | Some ob => dict_setitem d (fst p) ob
  | None => d
  end.

Lemma dict_of_results_fold (results : list (string * option OrderBook)) :
  dict_of_results results = fold_left results_step results [].
Proof. reflexivity. Qed.

Lemma results_fold_lookup (results : list (string * option OrderBook))
    (d : list (string * OrderBook)) (k : string) :
  assoc_lookup k (fold_left results_step results d)
  = fold_left (fun acc p => if String.eqb k (fst p)
                            then match snd p with Some ob => Some ob | None => acc end
                            else acc) results (assoc_lookup k d).
Proof.
  revert d. induction results as [|[t o] rest IH]; intros d; simpl; [reflexivity|].
  rewrite IH. f_equal. unfold results_step. simpl.
  destruct o as [ob|].
  - rewrite dict_setitem_lookup. reflexivity.
  - destruct (String.eqb k t); reflexivity.
Qed.

Lemma results_fold_nodup (results : list (string * option OrderBook))
    (d : list (string * OrderBook)) :
  NoDup (map fst d) -> NoDup (map fst (fold_left results_step results d)).
Proof.
  revert d. induction results as [|[t o] rest IH]; intros d Hd; simpl; [exact Hd|].
  apply IH. unfold results_step. simpl.
  destruct o; [now apply dict_setitem_nodup | exact Hd].
Qed.

Lemma results_fold_keys_in (results : list (string * option OrderBook))
    (d : list (string * OrderBook)) (x : string) :
  In x (map fst (fold_left results_step results d)) ->
  In x (map fst d) \/ In x (map fst results).
Proof.
  revert d. induction results as [|[t o] rest IH]; intros d Hx; simpl in *; [now left|].
  apply IH in Hx. destruct Hx as [Hx|Hx]; [|now right; right].
  unfold results_step in Hx. simpl in Hx. destruct o as [ob|]; [|now left].
  apply dict_setitem_keys_in in Hx. destruct Hx as [->|Hx]; [now right; left | now left].
Qed.

Lemma results_fold_length (results : list (string * option OrderBook))
    (d : list (string * OrderBook)) :
  (length (fold_left results_step results d)
   <= length d + length (filter is_success results))%nat.
Proof.
  revert d. induction results as [|[t o] rest IH]; intros d; simpl; [lia|].
  unfold results_step at 2. unfold is_success at 1. simpl.
  destruct o as [ob|]; simpl.
  - specialize (IH (dict_setitem d t ob)).
    assert (Hl : (length (dict_setitem d t ob) <= S (length d))%nat).
    { rewrite <- !(length_map fst).
      destruct (in_dec string_dec t (map fst d)) as [Hin|Hout].
      - rewrite dict_setitem_keys_old by exact Hin. lia.
      - rewrite dict_setitem_keys_new by exact Hout. rewrite length_app. simpl. lia. }
    lia.
  - apply IH.
Qed.

(** With pairwise distinct tokens, each success appends one new key. *)
Lemma results_fold_keys_distinct (results : list (string * option OrderBook))
    (d : list (string * OrderBook)) :
  NoDup (map fst results) ->
  (forall x, In x (map fst results) -> ~ In x (map fst d)) ->
  map fst (fold_left results_step results d)
  = map fst d ++ map fst (filter is_success results).
Proof.
  revert d. induction results as [|[t o] rest IH]; intros d Hnd Hdisj; simpl.
  - now rewrite app_nil_r.
  - inversion Hnd as [|? ? Ht Hrest]; subst.
    unfold results_step at 2. unfold is_success at 1. simpl.
    destruct o as [ob|]; simpl.
    + rewrite IH; [| exact Hrest |].
      * rewrite dict_setitem_keys_new by (apply Hdisj; now left).
        now rewrite <- app_assoc.
      * intros x Hx Hin. apply dict_setitem_keys_in in Hin.
        destruct Hin as [->|Hin]; [exact (Ht Hx)|].
        exact (Hdisj x (or_intror Hx) Hin).
    + apply IH; [exact Hrest|]. intros x Hx. apply Hdisj. now right.
Qed.

Lemma gather_fetch_tokens (client : Client) (i : nat) (token_ids : list string)
    (results : list (string * option OrderBook)) :
  gather_fetch client i token_ids = Ok results -> map fst results = token_ids.
Proof.
  revert i results. induction token_ids as [|t ts IH]; simpl; intros i results H.
  - injection H as <-. reflexivity.
  - destruct (fetch_orderbook t (client i t)) as [ob|e]; [|discriminate]. simpl in H.
    destruct (gather_fetch client (S i) ts) as [rest|e] eqn:E; [|discriminate].
    simpl in H. injection H as <-. simpl. f_equal. now apply (IH (S i)).
Qed.

(** [gather] raises nothing when no single retrieval raises. *)
Lemma gather_fetch_ok (client : Client) (i : nat) (token_ids : list string) :
  (forall j t, nth_error token_ids j = Some t ->
               exists o, fetch_orderbook t (client (i + j)%nat t) = Ok o) ->
  exists results, gather_fetch client i token_ids = Ok results.
Proof.
  revert i. induction token_ids as [|t ts IH]; intros i H; simpl; [now eexists|].
  destruct (H 0%nat t eq_refl) as [o Ho]. rewrite Nat.add_0_r in Ho. rewrite Ho. simpl.
  destruct (IH (S i)) as [rest Hrest].
  - intros j t' Hj. replace (S i + j)%nat with (i + S j)%nat by lia. apply (H (S j)). exact Hj.
  - rewrite Hrest. simpl. now eexists.
Qed.

Lemma filter_length_split {A : Type} (f : A -> bool) (l : list A) :
  (length (filter f l) + length (filter (fun x => negb (f x)) l))%nat = length l.
Proof.
  induction l as [|x xs IH]; simpl; [reflexivity|].
  destruct (f x); simpl; lia.
Qed.

(** Every transport failure and every caught parse error is a [None]. *)
Lemma fetch_orderbook_failures (t : string) :
  fetch_orderbook t Timeout = Ok None
  /\ (forall code, fetch_orderbook t (StatusError code) = Ok None)
  /\ fetch_orderbook t TransportError = Ok None
  /\ fetch_orderbook t (Body None) = Ok None
  /\ (forall data e, from_api_response data t = Raise e -> parse_error_caught e = true ->
                     fetch_orderbook t (Body (Some data)) = Ok None).
Proof.
  repeat split. intros data e H Hc. simpl. now rewrite H, Hc.
Qed.

(** A JSON body that is not an object makes [data.get] raise
    [AttributeError], which no [except] clause of [fetch_orderbook] lists,
    so it escapes [asyncio.gather]. *)
Example fetch_orderbooks_batch_list_body :
  fetch_orderbooks_batch (fun _ _ => Body (Some (PyList []))) ["a"] = Raise AttributeError.
Proof. reflexivity. Qed.

(** C5 (amended): for pairwise distinct token identifiers, when no single
    retrieval raises, [fetch_orderbooks_batch] raises nothing and returns a
    dict whose keys are exactly the tokens whose retrieval succeeded (in
    input order), so with N tokens and K failed retrievals it has N - K
    entries, each holding the book fetched for its token. *)
Theorem fetch_orderbooks_batch_partial_failure (client : Client) (token_ids : list string) :
  NoDup token_ids ->
  (forall j t, nth_error token_ids j = Some t ->
               exists o, fetch_orderbook t (client j t) = Ok o) ->
  exists results d,
    gather_fetch client 0 token_ids = Ok results
    /\ fetch_orderbooks_batch client token_ids = Ok d
    /\ map fst d = map fst (filter is_success results)
    /\ length d = (length token_ids
                   - length (filter (fun p => negb (is_success p)) results))%nat
    /\ (forall t, assoc_lookup t d = last_success t results).
Proof.
  intros Hnd Hok.
  destruct (gather_fetch_ok client 0 token_ids Hok) as [results Hres].
  pose proof (gather_fetch_tokens client 0 token_ids results Hres) as Htok.
  exists results, (dict_of_results results).
  assert (Hkeys : map fst (dict_of_results results) = map fst (filter is_success results)).
  { rewrite dict_of_results_fold, results_fold_keys_distinct.
    - reflexivity.
    - now rewrite Htok.
    - intros x _ []. }
  split; [exact Hres|]. split; [unfold fetch_orderbooks_batch; now rewrite Hres|].
  split; [exact Hkeys|]. split.
  - rewrite <- (length_map fst (dict_of_results results)), Hkeys, length_map.
    rewrite <- Htok, length_map.
    pose proof (filter_length_split is_success results). lia.
  - intro t. rewrite dict_of_results_fold, results_fold_lookup. reflexivity.
Qed.

Lemma fetch_orderbooks_batch_partial_failure_witness :
  (exists results,
     gather_fetch partial_client 0 ["a"; "b"; "c"] = Ok results
     /\ length (filter (fun p => negb (is_success p)) results) = 1%nat)
  /\ exists results d,
    gather_fetch partial_client 0 ["a"; "b"; "c"] = Ok results
    /\ fetch_orderbooks_batch partial_client ["a"; "b"; "c"] = Ok d
    /\ map fst d = map fst (filter is_success results)
    /\ length d = (length ["a"; "b"; "c"]
                   - length (filter (fun p => negb (is_success p)) results))%nat
    /\ (forall t, assoc_lookup t d = last_success t results).
Proof.
  split; [eexists; split; reflexivity|].
  apply fetch_orderbooks_batch_partial_failure.
  - repeat constructor; simpl; intuition discriminate.
  - intros j t H. destruct j as [|[|[|j]]]; simpl in H.
    + injection H as <-. eexists; reflexivity.
    + injection H as <-. eexists; reflexivity.
    + injection H as <-. eexists; reflexivity.
    + destruct j; discriminate.
Defined.

(** C5 as stated fails when a token occurs twice: no retrieval fails
    (K = 0) but the dict has one entry, not N - K = 2. *)
Lemma fetch_orderbooks_batch_duplicate_counterexample :
  exists results d,
    gather_fetch empty_book_client 0 ["a"; "a"] = Ok results
    /\ length (filter (fun p => negb (is_success p)) results) = 0%nat
    /\ fetch_orderbooks_batch empty_book_client ["a"; "a"] = Ok d
    /\ length d <> (length ["a"; "a"] - 0)%nat.
Proof.
  do 2 eexists. split; [reflexivity|]. split; [reflexivity|].
  split; [reflexivity|]. simpl. discriminate.
Qed.

(** C10: the dict returned by [fetch_orderbooks_batch] has distinct keys,
    all drawn from the input; each key maps to the last successful result
    for it (later results overwrite earlier ones); and it has at most as
    many entries as there were successful retrievals. *)
Theorem fetch_orderbooks_batch_keys (client : Client) (token_ids : list string)
    (d : list (string * OrderBook)) :
  fetch_orderbooks_batch client token_ids = Ok d ->
  exists results,
    gather_fetch client 0 token_ids = Ok results
    /\ NoDup (map fst d)
    /\ (forall k, In k (map fst d) -> In k token_ids)
    /\ (forall k, assoc_lookup k d = last_success k results)
    /\ (length d <= length (filter is_success results))%nat.
Proof.
  unfold fetch_orderbooks_batch. intros H.
  destruct (gather_fetch client 0 token_ids) as [results|e] eqn:Hres; [|discriminate].
  simpl in H. injection H as <-. exists results.
  pose proof (gather_fetch_tokens client 0 token_ids results Hres) as Htok.
  rewrite dict_of_results_fold.
  split; [reflexivity|]. split; [|split; [|split]].
  - apply results_fold_nodup. constructor.
  - intros k Hk. apply results_fold_keys_in in Hk.
    destruct Hk as [[]|Hk]. now rewrite <- Htok.
  - intro k. apply results_fold_lookup.
  - apply results_fold_length.
Qed.

(** Two requests for token "a" both succeed with different books: one
    entry, holding the second book. *)
Lemma fetch_orderbooks_batch_keys_witness :
  exists d results,
    fetch_orderbooks_batch changing_client ["a"; "a"] = Ok d
    /\ gather_fetch changing_client 0 ["a"; "a"] = Ok results
    /\ NoDup (map fst d)
    /\ (forall k, In k (map fst d) -> In k ["a"; "a"])
    /\ (forall k, assoc_lookup k d = last_success k results)
    /\ (length d <= length (filter is_success results))%nat
    /\ (length d < length (filter is_success results))%nat
    /\ option_map asks (assoc_lookup "a" d)
       = Some [PyDict [("price", PyStr "0.60"); ("size", PyStr "20")]].
Proof.
  eexists. destruct (fetch_orderbooks_batch_keys changing_client ["a"; "a"] _ eq_refl)
    as [results [H1 [H2 [H3 [H4 H5]]]]].
  exists results. split; [reflexivity|]. split; [exact H1|]. split; [exact H2|].
  split; [exact H3|]. split; [exact H4|]. split; [exact H5|].
  injection H1 as <-. split; [simpl; lia | reflexivity].
Defined.

(** ** Order book construction *)

Lemma mapM_combine_Forall {A B : Type} (keyf : A -> result B) (xs : list A) (ks : list B) :
  mapM keyf xs = Ok ks -> Forall (fun p => keyf (snd p) = Ok (fst p)) (combine ks xs).
Proof.
  revert ks. induction xs as [|x xs IH]; simpl; intros ks H.
  - injection H as <-. constructor.
  - destruct (keyf x) as [k|e] eqn:Ek; [|discriminate]. simpl in H.
    destruct (mapM keyf xs) as [ks'|e] eqn:E; [|discriminate]. simpl in H.
    injection H as <-. simpl. constructor; [exact Ek | now apply IH].
Qed.

Lemma mapM_map_snd {A B : Type} (keyf : A -> result B) (l : list (B * A)) :
  Forall (fun p => keyf (snd p) = Ok (fst p)) l -> mapM keyf (map snd l) = Ok (map fst l).
Proof.
  induction 1 as [|[k x] l Hx Hl IH]; simpl in *; [reflexivity|].
  rewrite Hx. simpl. rewrite IH. reflexivity.
Qed.

Lemma map_snd_combine {A B : Type} (ks : list A) (xs : list B) :
  length ks = length xs -> map snd (combine ks xs) = xs.
Proof.
  revert xs. induction ks as [|k ks IH]; intros [|x xs] H; simpl in *;
    try discriminate; [reflexivity|].
  f_equal. apply IH. now injection H.
Qed.

Lemma map_fst_combine {A B : Type} (ks : list A) (xs : list B) :
  length ks = length xs -> map fst (combine ks xs) = ks.
Proof.
  revert xs. induction ks as [|k ks IH]; intros [|x xs] H; simpl in *;
    try discriminate; [reflexivity|].
  f_equal. apply IH. now injection H.
Qed.

Lemma StronglySorted_map {A B : Type} (f : A -> B) (S : B -> B -> Prop) (l : list A) :
  StronglySorted (fun a b => S (f a) (f b)) l -> StronglySorted S (map f l).
Proof.
  induction 1 as [|a l Hs IH Hf]; simpl; constructor; [exact IH|].
  apply Forall_map. exact Hf.
Qed.

(** ** CPython's sort on a strict weak order *)

Lemma StronglySorted_nth {A : Type} (S : A -> A -> Prop) (l : list A) (d : A) (i j : nat) :
  StronglySorted S l -> (i < j)%nat -> (j < length l)%nat -> S (nth i l d) (nth j l d).
Proof.
  revert i j. induction l as [|a l IH]; intros i j Hs Hij Hj; simpl in Hj; [lia|].
  apply StronglySorted_inv in Hs as [Hs Hf].
  destruct j as [|j]; [lia|]. destruct i as [|i]; simpl.
  - rewrite Forall_forall in Hf. apply Hf, nth_In. lia.
  - apply IH; auto; lia.
Qed.

Lemma in_firstn_nth {A : Type} (l : list A) (i : nat) (d x : A) :
  In x (firstn i l) -> exists k, (k < i)%nat /\ (k < length l)%nat /\ nth k l d = x.
Proof.
  revert i. induction l as [|a l IH]; intros i H; destruct i as [|i]; simpl in H; try contradiction.
  destruct H as [<-|H].
  - exists 0%nat. simpl. split; [lia|]. split; [lia|reflexivity].
  - destruct (IH i H) as [k [Hk [Hl Hn]]]. exists (S k). simpl. split; [lia|]. split; [lia|exact Hn].
Qed.

Lemma in_skipn_nth {A : Type} (l : list A) (i : nat) (d x : A) :
  In x (skipn i l) -> exists k, (i <= k)%nat /\ (k < length l)%nat /\ nth k l d = x.
Proof.
  revert i. induction l as [|a l IH]; intros i H; destruct i as [|i]; simpl in H; try contradiction.
  - destruct H as [<-|H].
    + exists 0%nat. simpl. split; [lia|]. split; [lia|reflexivity].
    + destruct (IH 0%nat H) as [k [Hk [Hl Hn]]]. exists (S k). simpl. split; [lia|]. split; [lia|exact Hn].
  - destruct (IH i H) as [k [Hk [Hl Hn]]]. exists (S k). simpl. split; [lia|]. split; [lia|exact Hn].
Qed.

Lemma in_firstn_in {A : Type} (l : list A) (i : nat) (x : A) :
  In x (firstn i l) -> In x l.
Proof. intros H. rewrite <- (firstn_skipn i l). apply in_or_app. now left. Qed.

Lemma in_skipn_in {A : Type} (l : list A) (i : nat) (x : A) :
  In x (skipn i l) -> In x l.
Proof. intros H. rewrite <- (firstn_skipn i l). apply in_or_app. now right. Qed.

Lemma StronglySorted_app_inv {A : Type} (S : A -> A -> Prop) (l1 l2 : list A) :
  StronglySorted S (l1 ++ l2) ->
  StronglySorted S l1 /\ StronglySorted S l2 /\ (forall x y, In x l1 -> In y l2 -> S x y).
Proof.
  induction l1 as [|a l1 IH]; simpl; intros H.
  - split; [constructor|]. split; [exact H|]. intros x y [].
  - apply StronglySorted_inv in H as [H Hf]. destruct (IH H) as [H1 [H2 H12]].
    rewrite Forall_app in Hf. destruct Hf as [Hf1 Hf2].
    split; [now constructor|]. split; [exact H2|].
    intros x y [<-|Hx] Hy; [rewrite Forall_forall in Hf2; now apply Hf2|now apply H12].
Qed.

Lemma StronglySorted_app {A : Type} (S : A -> A -> Prop) (l1 l2 : list A) :
  StronglySorted S l1 -> StronglySorted S l2 -> (forall x y, In x l1 -> In y l2 -> S x y) ->
  StronglySorted S (l1 ++ l2).
Proof.
  induction l1 as [|a l1 IH]; simpl; intros H1 H2 H12; [exact H2|].
  apply StronglySorted_inv in H1 as [H1 Hf]. constructor.
  - apply IH; auto.
  - apply Forall_app. split; [exact Hf|]. apply Forall_forall. intros y Hy. apply H12; auto.
Qed.

Lemma Forall_perm {A : Type} (P : A -> Prop) (l l' : list A) :
  Permutation l l' -> Forall P l' -> Forall P l.
Proof.
  intros Hp H. rewrite Forall_forall in *. intros x Hx. apply H.
  exact (Permutation_in x Hp Hx).
Qed.

Section ListSortProofs.
Context {A : Type} (lt : A -> A -> bool) (P : A -> Prop).

(** On the items satisfying [P], [lt] is a strict weak order: asymmetric,
    and [a < c] puts every [b] above [a] or below [c]. *)
Hypothesis lt_asym : forall a b, P a -> P b -> lt a b = true -> lt b a = false.
Hypothesis lt_split : forall a b c, P a -> P b -> P c ->
  lt a c = true -> lt a b = true \/ lt b c = true.

(** [a] may precede [b]: [b < a] does not hold. *)
Let le (a b : A) : Prop := lt b a = false.

Lemma le_trans (a b c : A) : P a -> P b -> P c -> le a b -> le b c -> le a c.
Proof.
  unfold le. intros Pa Pb Pc Hab Hbc. destruct (lt c a) eqn:E; [|reflexivity].
  destruct (lt_split c b a Pc Pb Pa E) as [H|H]; congruence.
Qed.

Lemma asc_run_sorted (l : list A) (prev : A) :
  Forall P (prev :: l) -> StronglySorted le (prev :: firstn (asc_run lt prev l) l).
Proof.
  revert prev. induction l as [|x r IH]; intros prev HP; simpl.
  - repeat constructor.
  - destruct (lt x prev) eqn:E; simpl; [repeat constructor|].
    inversion HP as [|? ? Pp HP']. inversion HP' as [|? ? Px Pr].
    pose proof (IH x HP') as Hs. constructor; [exact Hs|].
    constructor; [exact E|]. apply StronglySorted_inv in Hs as [_ Hf].
    rewrite Forall_forall in *. intros y Hy.
    assert (Py : P y) by exact (Pr y (in_firstn_in _ _ _ Hy)).
    exact (le_trans prev x y Pp Px Py E (Hf y Hy)).
Qed.

Lemma desc_run_sorted (l : list A) (prev : A) :
  Forall P (prev :: l)
  -> StronglySorted (fun a b => le b a) (prev :: firstn (desc_run lt prev l) l).
Proof.
  revert prev. induction l as [|x r IH]; intros prev HP; simpl.
  - repeat constructor.
  - destruct (lt x prev) eqn:E; simpl; [|repeat constructor].
    inversion HP as [|? ? Pp HP']. inversion HP' as [|? ? Px Pr].
    pose proof (IH x HP') as Hs. constructor; [exact Hs|].
    assert (Hpx : le x prev) by exact (lt_asym x prev Px Pp E).
    constructor; [exact Hpx|]. apply StronglySorted_inv in Hs as [_ Hf].
    rewrite Forall_forall in *. intros y Hy.
    assert (Py : P y) by exact (Pr y (in_firstn_in _ _ _ Hy)).
    exact (le_trans y x prev Py Px Pp (Hf y Hy) Hpx).
Qed.

Lemma bs_loop_spec (pivot : A) (pre : list A) :
  StronglySorted le pre -> Forall P pre -> P pivot ->
  forall fuel lo hi,
    (hi - lo <= fuel)%nat -> (lo <= hi)%nat -> (hi <= length pre)%nat ->
    (forall k, (k < lo)%nat -> lt pivot (nth k pre pivot) = false) ->
    (forall k, (hi <= k)%nat -> (k < length pre)%nat -> lt pivot (nth k pre pivot) = true) ->
    let i := bs_loop lt fuel pivot pre lo hi in
    (i <= length pre)%nat
    /\ (forall k, (k < i)%nat -> lt pivot (nth k pre pivot) = false)
    /\ (forall k, (i <= k)%nat -> (k < length pre)%nat -> lt pivot (nth k pre pivot) = true).
Proof.
  intros Hs HP Pp. rewrite Forall_forall in HP.
  assert (Pn : forall k, (k < length pre)%nat -> P (nth k pre pivot))
    by (intros k Hk; apply HP, nth_In, Hk).
  induction fuel as [|fuel IH]; intros lo hi Hf Hlh Hh Hlo Hhi; cbn [bs_loop].
  - assert (lo = hi) as <- by lia. split; [lia|]. split; assumption.
  - destruct (lo <? hi)%nat eqn:E.
    + apply Nat.ltb_lt in E.
      assert (Hd : ((hi - lo) / 2 < hi - lo)%nat) by (apply Nat.div_lt; lia).
      set (p := (lo + (hi - lo) / 2)%nat).
      assert (Hp : (lo <= p < hi)%nat) by (unfold p; lia).
      destruct (lt pivot (nth p pre pivot)) eqn:Ep.
      * apply IH; try lia; [exact Hlo|]. intros k Hk1 Hk2.
        destruct (Nat.lt_ge_cases k hi) as [Hk|Hk]; [|now apply Hhi].
        destruct (Nat.eq_dec k p) as [->|Hne]; [exact Ep|].
        assert (Hle : le (nth p pre pivot) (nth k pre pivot))
          by (apply (StronglySorted_nth le pre pivot); auto; lia).
        assert (Pk : P (nth k pre pivot)) by (apply Pn; lia).
        assert (Pq : P (nth p pre pivot)) by (apply Pn; lia).
        destruct (lt_split pivot (nth k pre pivot) (nth p pre pivot) Pp Pk Pq Ep)
          as [H|H]; [exact H|]. unfold le in Hle. congruence.
      * apply IH; try lia; [|exact Hhi]. intros k Hk.
        destruct (Nat.lt_ge_cases k lo) as [Hk'|Hk']; [now apply Hlo|].
        destruct (Nat.eq_dec k p) as [->|Hne]; [exact Ep|].
        assert (Hle : le (nth k pre pivot) (nth p pre pivot))
          by (apply (StronglySorted_nth le pre pivot); auto; lia).
        destruct (lt pivot (nth k pre pivot)) eqn:Ek; [|reflexivity].
        assert (Pk : P (nth k pre pivot)) by (apply Pn; lia).
        assert (Pq : P (nth p pre pivot)) by (apply Pn; lia).
        destruct (lt_split pivot (nth p pre pivot) (nth k pre pivot) Pp Pq Pk Ek)
          as [H|H]; unfold le in Hle; congruence.
    + apply Nat.ltb_ge in E. assert (lo = hi) as <- by lia.
      split; [lia|]. split; assumption.
Qed.

Lemma binsert_spec (pivot : A) (pre : list A) :
  StronglySorted le pre -> Forall P pre -> P pivot ->
  StronglySorted le (binsert lt pivot pre) /\ Permutation (binsert lt pivot pre) (pivot :: pre).
Proof.
  intros Hs HP Pp. unfold binsert.
  pose proof (bs_loop_spec pivot pre Hs HP Pp (length pre) 0 (length pre)
                ltac:(lia) ltac:(lia) ltac:(lia) ltac:(intros k Hk; lia)
                ltac:(intros k Hk1 Hk2; lia)) as Hspec.
  cbv zeta in Hspec. destruct Hspec as [Hi [Hbelow Habove]].
  set (i := bs_loop lt (length pre) pivot pre 0 (length pre)) in *.
  split.
  - pose proof Hs as Hs'. rewrite <- (firstn_skipn i pre) in Hs'.
    destruct (StronglySorted_app_inv le _ _ Hs') as [H1 [H2 H12]].
    apply StronglySorted_app; [exact H1| |].
    + constructor; [exact H2|]. apply Forall_forall. intros y Hy.
      destruct (in_skipn_nth pre i pivot y Hy) as [k [Hk1 [Hk2 <-]]].
      apply lt_asym; auto.
      * rewrite Forall_forall in HP. apply HP, nth_In, Hk2.
    + intros x y Hx [<-|Hy].
      * destruct (in_firstn_nth pre i pivot x Hx) as [k [Hk1 [Hk2 <-]]].
        unfold le. apply Hbelow, Hk1.
      * exact (H12 x y Hx Hy).
  - transitivity (pivot :: firstn i pre ++ skipn i pre).
    + apply Permutation_sym, Permutation_middle.
    + now rewrite firstn_skipn.
Qed.

Lemma fold_binsert_spec (rest acc : list A) :
  StronglySorted le acc -> Forall P acc -> Forall P rest ->
  StronglySorted le (fold_left (fun acc x => binsert lt x acc) rest acc)
  /\ Permutation (fold_left (fun acc x => binsert lt x acc) rest acc) (acc ++ rest).
Proof.
  revert acc. induction rest as [|x r IH]; intros acc Hs HP Hr; simpl.
  - rewrite app_nil_r. split; [exact Hs|reflexivity].
  - inversion Hr as [|? ? Px Pr].
    destruct (binsert_spec x acc Hs HP Px) as [Hs' Hp'].
    assert (HP' : Forall P (binsert lt x acc))
      by (apply (Forall_perm P _ _ Hp'); now constructor).
    destruct (IH _ Hs' HP' Pr) as [Hs'' Hp'']. split; [exact Hs''|].
    rewrite Hp''. rewrite Hp'. simpl. apply Permutation_middle.
Qed.

Lemma list_sort_spec (l : list A) :
  Forall P l -> StronglySorted le (list_sort lt l) /\ Permutation (list_sort lt l) l.
Proof.
  intros HP. unfold list_sort.
  assert (Hrun : forall n (run0 : list A),
             StronglySorted le run0 -> Permutation run0 (firstn n l) ->
             StronglySorted le (fold_left (fun acc x => binsert lt x acc) (skipn n l) run0)
             /\ Permutation (fold_left (fun acc x => binsert lt x acc) (skipn n l) run0) l).
  { intros n run0 Hs Hp. pose proof HP as HP'. rewrite <- (firstn_skipn n l) in HP'.
    apply Forall_app in HP' as [H1 H2].
    destruct (fold_binsert_spec (skipn n l) run0 Hs (Forall_perm P _ _ Hp H1) H2) as [Hs' Hp'].
    split; [exact Hs'|]. rewrite Hp'. rewrite Hp. now rewrite firstn_skipn. }
  destruct l as [|x [|y r]]; simpl.
  - split; constructor.
  - split; [repeat constructor|reflexivity].
  - destruct (lt y x) eqn:E.
    + apply Hrun; [|apply Permutation_sym, Permutation_rev].
      pose proof (desc_run_sorted (y :: r) x HP) as Hd. simpl in Hd. rewrite E in Hd.
      exact (StronglySorted_rev _ _ Hd).
    + apply Hrun; [|reflexivity].
      pose proof (asc_run_sorted (y :: r) x HP) as Hd. simpl in Hd. rewrite E in Hd.
      exact Hd.
Qed.

(** [sort(reverse=False)] leaves its items non-descending and
    [sort(reverse=True)] non-ascending, both a permutation of the input. *)
Lemma py_list_sort_spec (reverse : bool) (l : list A) :
  Forall P l ->
  StronglySorted (fun a b => if reverse then le b a else le a b) (py_list_sort lt reverse l)
  /\ Permutation (py_list_sort lt reverse l) l.
Proof.
  intros HP. unfold py_list_sort. destruct reverse.
  - assert (HP' : Forall P (rev l)) by (apply (Forall_perm P _ _ (Permutation_sym (Permutation_rev l))); exact HP).
    destruct (list_sort_spec (rev l) HP') as [Hs Hp]. split.
    + exact (StronglySorted_rev _ _ Hs).
    + rewrite <- Permutation_rev. rewrite Hp. apply Permutation_sym, Permutation_rev.
  - exact (list_sort_spec l HP).
Qed.
(** Whatever [lt] is, the sort only rearranges its input. *)
Lemma binsert_perm (pivot : A) (pre : list A) :
  Permutation (binsert lt pivot pre) (pivot :: pre).
Proof.
  unfold binsert. set (i := bs_loop lt (length pre) pivot pre 0 (length pre)).
  transitivity (pivot :: firstn i pre ++ skipn i pre).
  - apply Permutation_sym, Permutation_middle.
  - now rewrite firstn_skipn.
Qed.

Lemma fold_binsert_perm (rest acc : list A) :
  Permutation (fold_left (fun acc x => binsert lt x acc) rest acc) (acc ++ rest).
Proof.
  revert acc. induction rest as [|x r IH]; intros acc; simpl.
  - now rewrite app_nil_r.
  - rewrite IH. rewrite binsert_perm. simpl. apply Permutation_middle.
Qed.

Lemma list_sort_perm (l : list A) : Permutation (list_sort lt l) l.
Proof.
  unfold list_sort. destruct (count_run lt l) as [n descending].
  rewrite fold_binsert_perm.
  transitivity (firstn n l ++ skipn n l); [|now rewrite firstn_skipn].
  apply Permutation_app_tail. destruct descending; [|reflexivity].
  apply Permutation_sym, Permutation_rev.
Qed.

Lemma py_list_sort_perm (reverse : bool) (l : list A) :
  Permutation (py_list_sort lt reverse l) l.
Proof.
  unfold py_list_sort. destruct reverse; [|apply list_sort_perm].
  rewrite <- Permutation_rev. rewrite list_sort_perm. apply Permutation_sym, Permutation_rev.
Qed.
End ListSortProofs.

(** [<] on doubles is asymmetric, and a strict weak order away from NaN. *)
Lemma flt_asym (a b : f64) : flt a b = true -> flt b a = false.
Proof.
  destruct a as [qa|[]|], b as [qb|[]|]; simpl; try discriminate; try reflexivity.
  intros H. apply Qltb_true in H. apply Qltb_false. now apply Qlt_le_weak.
Qed.

Lemma flt_split (a b c : f64) :
  b <> NaN -> flt a c = true -> flt a b = true \/ flt b c = true.
Proof.
  destruct a as [qa|[]|], b as [qb|[]|], c as [qc|[]|]; simpl; intros Hb H;
    try discriminate; try (left; reflexivity); try (right; reflexivity); try congruence.
  apply Qltb_true in H. destruct (Qlt_le_dec qa qb) as [L|L].
  - left. now apply Qltb_true.
  - right. apply Qltb_true. exact (Qle_lt_trans _ _ _ L H).
Qed.

(** What [sorted(xs, key=keyf, reverse=reverse)] returns on a list: a
    permutation of [xs], whose keys are ordered when none is NaN. *)
Lemma py_sorted64_list_spec (keyf : pyval -> result f64) (reverse : bool)
    (xs ys : list pyval) :
  py_sorted64 keyf reverse (PyList xs) = Ok ys ->
  Permutation ys xs
  /\ forall ks0, mapM keyf xs = Ok ks0 -> ~ In NaN ks0 ->
     exists ks, mapM keyf ys = Ok ks
       /\ StronglySorted (fun x y => if reverse then flt x y = false else flt y x = false) ks.
Proof.
  unfold py_sorted64. simpl. destruct (mapM keyf xs) as [ks|e] eqn:Eks; [|discriminate].
  simpl. intros H. injection H as <-.
  pose proof (mapM_length keyf xs ks Eks) as Hlen.
  pose proof (mapM_combine_Forall keyf xs ks Eks) as Hf.
  set (lt2 := fun a b : f64 * pyval => flt (fst a) (fst b)).
  pose proof (py_list_sort_perm lt2 reverse (combine ks xs)) as Hperm.
  split.
  - rewrite <- (map_snd_combine ks xs Hlen) at 2. now apply Permutation_map.
  - intros ks0 E0 Hnan. injection E0 as <-.
    exists (map fst (py_list_sort lt2 reverse (combine ks xs))). split.
    + apply mapM_map_snd. eapply Permutation_Forall; [symmetry; exact Hperm | exact Hf].
    + assert (HP : Forall (fun p : f64 * pyval => fst p <> NaN) (combine ks xs)).
      { apply Forall_forall. intros [k x] Hin Hk. simpl in Hk. subst k.
        apply Hnan. exact (in_combine_l _ _ _ _ Hin). }
      destruct (py_list_sort_spec lt2 (fun p => fst p <> NaN)
                  (fun a b _ _ => flt_asym (fst a) (fst b))
                  (fun a b c _ Pb _ => flt_split (fst a) (fst b) (fst c) Pb)
                  reverse (combine ks xs) HP) as [Hs _].
      apply StronglySorted_map. destruct reverse; exact Hs.
Qed.

Lemma py_sorted64_list_ok (keyf : pyval -> result f64) (reverse : bool) (xs : list pyval) :
  (exists ys, py_sorted64 keyf reverse (PyList xs) = Ok ys)
  <-> exists ks, mapM keyf xs = Ok ks.
Proof.
  unfold py_sorted64. simpl. split.
  - intros [ys H]. destruct (mapM keyf xs) as [ks|e]; [now exists ks | discriminate].
  - intros [ks H]. rewrite H. simpl. now eexists.
Qed.

(** C7 (amended): construction succeeds exactly when every bid and ask
    has a sort key [float(entry.get("price", "0"))]; each ladder is then a
    permutation of its input, so entries and their sizes are unchanged, and
    when no key is NaN the bids are ordered by key descending and the asks
    ascending.  A missing price sorts as 0.0.  A price string that
    [float] rejects is not defaulted: its key raises [ValueError], so
    construction raises. *)
Theorem OrderBook_new_sorts_ladders (bids0 asks0 : list pyval) (tid : string) :
  ((exists ob, OrderBook_new (PyList bids0) (PyList asks0) tid = Ok ob)
     <-> (exists kb, mapM price_sort_key bids0 = Ok kb)
         /\ (exists ka, mapM price_sort_key asks0 = Ok ka))
  /\ (forall ob, OrderBook_new (PyList bids0) (PyList asks0) tid = Ok ob ->
        Permutation (bids ob) bids0
        /\ Permutation (asks ob) asks0
        /\ (forall kb, mapM price_sort_key bids0 = Ok kb -> ~ In NaN kb ->
              exists kb', mapM price_sort_key (bids ob) = Ok kb'
                          /\ StronglySorted (fun x y => flt x y = false) kb')
        /\ (forall ka, mapM price_sort_key asks0 = Ok ka -> ~ In NaN ka ->
              exists ka', mapM price_sort_key (asks ob) = Ok ka'
                          /\ StronglySorted (fun x y => flt y x = false) ka'))
  /\ (forall kv, assoc_lookup "price" kv = None -> price_sort_key (PyDict kv) = Ok (Fin 0))
  /\ (forall kv s, assoc_lookup "price" kv = Some (PyStr s) ->
        price_sort_key (PyDict kv) = Raise ValueError <-> float_of_text s = None).
Proof.
  split; [|split; [|split]].
  - unfold OrderBook_new. split.
    + intros [ob H].
      destruct (py_sorted64 price_sort_key true (PyList bids0)) as [sb|e] eqn:Eb;
        [|discriminate]. simpl in H.
      destruct (py_sorted64 price_sort_key false (PyList asks0)) as [sa|e] eqn:Ea;
        [|discriminate].
      split; [apply (py_sorted64_list_ok _ true) | apply (py_sorted64_list_ok _ false)];
        eexists; eassumption.
    + intros [Hb Ha].
      apply (py_sorted64_list_ok _ true) in Hb. apply (py_sorted64_list_ok _ false) in Ha.
      destruct Hb as [sb Hb], Ha as [sa Ha].
      rewrite Hb. simpl. rewrite Ha. simpl. now eexists.
  - intros ob. unfold OrderBook_new.
    destruct (py_sorted64 price_sort_key true (PyList bids0)) as [sb|e] eqn:Eb;
      [|discriminate]. simpl.
    destruct (py_sorted64 price_sort_key false (PyList asks0)) as [sa|e] eqn:Ea;
      [|discriminate]. simpl. intros H. injection H as <-. simpl.
    destruct (py_sorted64_list_spec _ _ _ _ Eb) as [Hpb Hsb].
    destruct (py_sorted64_list_spec _ _ _ _ Ea) as [Hpa Hsa].
    repeat split; assumption.
  - intros kv H. unfold price_sort_key, dict_get. rewrite H. reflexivity.
  - intros kv s H. unfold price_sort_key, dict_get. rewrite H. simpl.
    destruct (float_of_text s); split; congruence.
Qed.

(** Bids 0.30 and 0.50, asks 0.70, "5e-1" and 0.55. *)
Lemma OrderBook_new_sorts_ladders_witness :
  OrderBook_new (PyList [price_entry "0.30" "10"; price_entry "0.50" "20"])
                (PyList [price_entry "0.70" "25"; price_entry "5e-1" "40";
                         price_entry "0.55" "30"]) "t"
  = Ok (mkOrderBook [price_entry "0.50" "20"; price_entry "0.30" "10"]
                    [price_entry "5e-1" "40"; price_entry "0.55" "30";
                     price_entry "0.70" "25"] "t")
  /\ exists ka', mapM price_sort_key [price_entry "5e-1" "40"; price_entry "0.55" "30";
                                      price_entry "0.70" "25"] = Ok ka'
                 /\ StronglySorted (fun x y => flt y x = false) ka'.
Proof.
  split; [vm_compute; reflexivity|].
  destruct (OrderBook_new_sorts_ladders
              [price_entry "0.30" "10"; price_entry "0.50" "20"]
              [price_entry "0.70" "25"; price_entry "5e-1" "40"; price_entry "0.55" "30"] "t")
    as [_ [Hsorted _]].
  destruct (Hsorted (mkOrderBook [price_entry "0.50" "20"; price_entry "0.30" "10"]
                                 [price_entry "5e-1" "40"; price_entry "0.55" "30";
                                  price_entry "0.70" "25"] "t")
                    ltac:(vm_compute; reflexivity)) as [_ [_ [_ Ha]]].
  eapply Ha; [vm_compute; reflexivity|].
  simpl. intuition discriminate.
Defined.

(** C7 as stated fails twice: an unparsable price string does not default
    to 0, so construction raises; and a NaN price ("nan", which [float]
    accepts) leaves the bids 0.3, nan, 0.5 in that order, unsorted. *)
Lemma OrderBook_new_unparsable_price_counterexample :
  OrderBook_new (PyList [price_entry "abc" "10"]) (PyList []) "t" = Raise ValueError
  /\ OrderBook_new (PyList [price_entry "0.3" "1"; price_entry "nan" "2";
                            price_entry "0.5" "3"]) (PyList []) "t"
     = Ok (mkOrderBook [price_entry "0.3" "1"; price_entry "nan" "2";
                        price_entry "0.5" "3"] [] "t").
Proof. split; vm_compute; reflexivity. Qed.

(** ** Best-price accessors *)





(** ** Accessors of well-formed books *)



Lemma empty_book_accessors (t : string) :
  best_bid (empty_book t) = Ok None /\ best_ask (empty_book t) = Ok None.
Proof. split; reflexivity. Qed.





Lemma filter_all_true {A : Type} (f : A -> bool) (l : list A) :
  Forall (fun x => f x = true) l -> filter f l = l.
Proof. induction 1; simpl; [reflexivity|]. now rewrite H, IHForall. Qed.

Lemma filter_all_false {A : Type} (f : A -> bool) (l : list A) :
  Forall (fun x => f x = false) l -> filter f l = [].
Proof. induction 1; simpl; [reflexivity|]. now rewrite H, IHForall. Qed.






Lemma price_ladder_wf (prices sizes : list string) :
  Forall (fun p => exists q, parse_decimal p = Some q) prices ->
  Forall (fun s => exists q, parse_decimal s = Some q) sizes ->
  length prices = length sizes ->
  Forall entry_wf (map (fun ps => price_entry (fst ps) (snd ps)) (combine prices sizes)).
Proof.
  intros Hp. revert sizes. induction Hp as [|p ps [qp Hqp] Hps IH];
    intros [|s ss] Hs Hlen; simpl in *; try discriminate; constructor.
  - inversion Hs as [|? ? [qs Hqs] _]; subst. split.
    + exists qp. unfold entry_price, price_entry. simpl. now rewrite Hqp.
    + exists qs. unfold entry_size, price_entry. simpl. now rewrite Hqs.
  - inversion Hs; subst. apply IH; [assumption | now injection Hlen].
Qed.





(** ** Multi-outcome helpers *)

Section MultiHelpers.
Variable f : OrderBook -> result (option Q).





End MultiHelpers.














Lemma bid_book_wf (p z t : string) :
  (exists q, parse_decimal p = Some q) -> (exists q, parse_decimal z = Some q) ->
  book_wf (bid_book p z t).
Proof.
  intros Hp Hz. split; [|constructor].
  apply (price_ladder_wf [p] [z]); repeat constructor; assumption.
Qed.


Lemma three_bids_books_wf : Forall (fun nb => book_wf (snd nb)) three_bids_books.
Proof.
  repeat (apply Forall_cons; [apply bid_book_wf; eexists; reflexivity|]).
  apply Forall_nil.
Qed.



(** ** The threshold test on doubles *)

Lemma binary_buy_block64_spec (thr : f64) (market : Market) (A B : OrderBook)
    (ya na : f64) (bb : list Opportunity64) :
  best_ask64 A = Ok (Some ya) -> best_ask64 B = Ok (Some na) ->
  binary_buy_block64 thr market A B = Ok bb ->
  (bb <> [] <-> flt (fadd ya na) (Fin 1) = true /\ fle thr (fsub (Fin 1) (fadd ya na)) = true)
  /\ Forall (fun o => arb_type64 o = "BUY" /\ profit_pct64 o = fsub (Fin 1) (fadd ya na)) bb.
Proof.
  intros Ha Hb. unfold binary_buy_block64. rewrite Ha, Hb. cbn [bind].
  destruct (flt (fadd ya na) (Fin 1)) eqn:E1;
    [destruct (fle thr (fsub (Fin 1) (fadd ya na))) eqn:E2|]; intros H.
  - destruct (best_ask_size64 A) as [ys|e]; cbn [bind] in H; [|discriminate].
    destruct (best_ask_size64 B) as [ns|e]; cbn [bind] in H; [|discriminate].
    destruct (py_min2_64 ys ns) as [ms|e]; cbn [bind] in H; [|discriminate].
    destruct (as_float64 ms) as [m|e]; cbn [bind] in H; [|discriminate].
    injection H as <-. split; [split; [auto | intros _; discriminate]|].
    repeat constructor.
  - injection H as <-. split; [split; [intros C; now elim C | intros [_ C]; discriminate C]|].
    constructor.
  - injection H as <-. split; [split; [intros C; now elim C | intros [C _]; discriminate C]|].
    constructor.
Qed.

Lemma binary_sell_block64_spec (thr : f64) (market : Market) (A B : OrderBook)
    (yb nb : f64) (bs : list Opportunity64) :
  best_bid64 A = Ok (Some yb) -> best_bid64 B = Ok (Some nb) ->
  binary_sell_block64 thr market A B = Ok bs ->
  (bs <> [] <-> flt (Fin 1) (fadd yb nb) = true /\ fle thr (fsub (fadd yb nb) (Fin 1)) = true)
  /\ Forall (fun o => arb_type64 o = "SELL" /\ profit_pct64 o = fsub (fadd yb nb) (Fin 1)) bs.
Proof.
  intros Ha Hb. unfold binary_sell_block64. rewrite Ha, Hb. cbn [bind].
  destruct (flt (Fin 1) (fadd yb nb)) eqn:E1;
    [destruct (fle thr (fsub (fadd yb nb) (Fin 1))) eqn:E2|]; intros H.
  - destruct (best_bid_size64 A) as [ys|e]; cbn [bind] in H; [|discriminate].
    destruct (best_bid_size64 B) as [ns|e]; cbn [bind] in H; [|discriminate].
    destruct (py_min2_64 ys ns) as [ms|e]; cbn [bind] in H; [|discriminate].
    destruct (as_float64 ms) as [m|e]; cbn [bind] in H; [|discriminate].
    injection H as <-. split; [split; [auto | intros _; discriminate]|].
    repeat constructor.
  - injection H as <-. split; [split; [intros C; now elim C | intros [_ C]; discriminate C]|].
    constructor.
  - injection H as <-. split; [split; [intros C; now elim C | intros [C _]; discriminate C]|].
    constructor.
Qed.

(** The BUY block only emits BUY opportunities, the SELL block SELL ones. *)
Lemma binary_buy_block64_types (thr : f64) (market : Market) (A B : OrderBook)
    (bb : list Opportunity64) :
  binary_buy_block64 thr market A B = Ok bb -> Forall (fun o => arb_type64 o = "BUY") bb.
Proof.
  intros H. destruct (best_ask64 A) as [[ya|]|e] eqn:Ha;
    [| unfold binary_buy_block64 in H; rewrite Ha in H; cbn [bind] in H;
       destruct (best_ask64 B) as [[|]|]; cbn [bind] in H; try discriminate;
       injection H as <-; constructor
     | unfold binary_buy_block64 in H; rewrite Ha in H; discriminate].
  destruct (best_ask64 B) as [[na|]|e] eqn:Hb.
  - destruct (binary_buy_block64_spec thr market A B ya na bb Ha Hb H) as [_ HF].
    eapply Forall_impl; [|exact HF]. now intros o [].
  - unfold binary_buy_block64 in H. rewrite Ha, Hb in H. injection H as <-. constructor.
  - unfold binary_buy_block64 in H. rewrite Ha, Hb in H. discriminate.
Qed.

Lemma binary_sell_block64_types (thr : f64) (market : Market) (A B : OrderBook)
    (bs : list Opportunity64) :
  binary_sell_block64 thr market A B = Ok bs -> Forall (fun o => arb_type64 o = "SELL") bs.
Proof.
  intros H. destruct (best_bid64 A) as [[yb|]|e] eqn:Ha;
    [| unfold binary_sell_block64 in H; rewrite Ha in H; cbn [bind] in H;
       destruct (best_bid64 B) as [[|]|]; cbn [bind] in H; try discriminate;
       injection H as <-; constructor
     | unfold binary_sell_block64 in H; rewrite Ha in H; discriminate].
  destruct (best_bid64 B) as [[nb|]|e] eqn:Hb.
  - destruct (binary_sell_block64_spec thr market A B yb nb bs Ha Hb H) as [_ HF].
    eapply Forall_impl; [|exact HF]. now intros o [].
  - unfold binary_sell_block64 in H. rewrite Ha, Hb in H. injection H as <-. constructor.
  - unfold binary_sell_block64 in H. rewrite Ha, Hb in H. discriminate.
Qed.

Lemma py_all_not_none64_some (f : OrderBook -> result (option f64))
    (books : list (string * OrderBook)) (vals : list f64) :
  Forall2 (fun nb a => f (snd nb) = Ok (Some a)) books vals ->
  py_all_not_none64 f books = Ok true.
Proof.
  induction 1 as [|[n b] a books vals Hb _ IH]; simpl in *; [reflexivity|].
  rewrite Hb. cbn [bind]. exact IH.
Qed.

Lemma mapM_book_of_some (f : OrderBook -> result (option f64))
    (books : list (string * OrderBook)) (vals : list f64) :
  Forall2 (fun nb a => f (snd nb) = Ok (Some a)) books vals ->
  mapM (fun nb => f (book_of nb)) books = Ok (map Some vals).
Proof.
  induction 1 as [|nb a books vals Hb _ IH]; simpl; [reflexivity|].
  unfold book_of at 1. rewrite Hb. cbn [bind]. rewrite IH. reflexivity.
Qed.

Lemma mapM_as_float64 (vals : list f64) : mapM as_float64 (map Some vals) = Ok vals.
Proof. induction vals as [|v vals IH]; simpl; [reflexivity|]. now rewrite IH. Qed.

Lemma multi_buy_block64_spec (thr : f64) (fsum : list f64 -> f64) (q : string)
    (books : list (string * OrderBook)) (ev : string) (asks : list f64)
    (mb : list Opportunity64) :
  Forall2 (fun nb a => best_ask64 (snd nb) = Ok (Some a)) books asks ->
  multi_buy_block64 thr fsum q books ev = Ok mb ->
  (mb <> [] <-> flt (fsum asks) (Fin 1) = true /\ fle thr (fsub (Fin 1) (fsum asks)) = true)
  /\ Forall (fun o => profit_pct64 o = fsub (Fin 1) (fsum asks)) mb.
Proof.
  intros Hf. unfold multi_buy_block64.
  rewrite (py_all_not_none64_some _ _ _ Hf). cbn [bind].
  rewrite (mapM_book_of_some _ _ _ Hf). cbn [bind]. rewrite mapM_as_float64. cbn [bind].
  destruct (flt (fsum asks) (Fin 1)) eqn:E1;
    [destruct (fle thr (fsub (Fin 1) (fsum asks))) eqn:E2|]; intros H.
  - destruct (mapM (fun nb => best_ask_size64 (book_of nb)) books) as [sz|e];
      cbn [bind] in H; [|discriminate].
    destruct (py_min64 sz) as [ms|e]; cbn [bind] in H; [|discriminate].
    destruct (as_float64 ms) as [m|e]; cbn [bind] in H; [|discriminate].
    injection H as <-. split; [split; [auto | intros _; discriminate]|].
    repeat constructor.
  - injection H as <-. split; [split; [intros C; now elim C | intros [_ C]; discriminate C]|].
    constructor.
  - injection H as <-. split; [split; [intros C; now elim C | intros [C _]; discriminate C]|].
    constructor.
Qed.

Lemma multi_sell_block64_spec (thr : f64) (fsum : list f64 -> f64) (q : string)
    (books : list (string * OrderBook)) (ev : string) (bids0 : list f64)
    (ms0 : list Opportunity64) :
  Forall2 (fun nb a => best_bid64 (snd nb) = Ok (Some a)) books bids0 ->
  multi_sell_block64 thr fsum q books ev = Ok ms0 ->
  (ms0 <> [] <-> flt (Fin 1) (fsum bids0) = true /\ fle thr (fsub (fsum bids0) (Fin 1)) = true)
  /\ Forall (fun o => profit_pct64 o = fsub (fsum bids0) (Fin 1)) ms0.
Proof.
  intros Hf. unfold multi_sell_block64.
  rewrite (py_all_not_none64_some _ _ _ Hf). cbn [bind].
  rewrite (mapM_book_of_some _ _ _ Hf). cbn [bind]. rewrite mapM_as_float64. cbn [bind].
  destruct (flt (Fin 1) (fsum bids0)) eqn:E1;
    [destruct (fle thr (fsub (fsum bids0) (Fin 1))) eqn:E2|]; intros H.
  - destruct (mapM (fun nb => best_bid_size64 (book_of nb)) books) as [sz|e];
      cbn [bind] in H; [|discriminate].
    destruct (py_min64 sz) as [m0|e]; cbn [bind] in H; [|discriminate].
    destruct (as_float64 m0) as [m|e]; cbn [bind] in H; [|discriminate].
    injection H as <-. split; [split; [auto | intros _; discriminate]|].
    repeat constructor.
  - injection H as <-. split; [split; [intros C; now elim C | intros [_ C]; discriminate C]|].
    constructor.
  - injection H as <-. split; [split; [intros C; now elim C | intros [C _]; discriminate C]|].
    constructor.
Qed.

(** C4 (amended): the threshold test is [>=] on the profit as Python
    computes it in doubles, for the BUY and SELL sides of both checks.
    Once the rounded sum of the best prices is below 1.0 (above 1.0 for
    bids), the side emits an opportunity exactly when the threshold is at
    most the rounded profit [1.0 - sum] ([sum - 1.0]), and the emitted
    profit is that double.  Every comparison is the exact IEEE one, with no
    tolerance.  [fsum] is the summation [sum] performs on the list of
    floats. *)
Theorem threshold_inclusive_ieee (thr : f64) (fsum : list f64 -> f64) (market : Market)
    (A B : OrderBook) (q ev : string) (books : list (string * OrderBook)) :
  (forall ya na opps, best_ask64 A = Ok (Some ya) -> best_ask64 B = Ok (Some na) ->
     check_binary_arbitrage64 thr market A B = Ok opps ->
     (filter is_buy64 opps <> []
        <-> flt (fadd ya na) (Fin 1) = true /\ fle thr (fsub (Fin 1) (fadd ya na)) = true)
     /\ Forall (fun o => profit_pct64 o = fsub (Fin 1) (fadd ya na)) (filter is_buy64 opps))
  /\ (forall yb nb opps, best_bid64 A = Ok (Some yb) -> best_bid64 B = Ok (Some nb) ->
     check_binary_arbitrage64 thr market A B = Ok opps ->
     (filter is_sell64 opps <> []
        <-> flt (Fin 1) (fadd yb nb) = true /\ fle thr (fsub (fadd yb nb) (Fin 1)) = true)
     /\ Forall (fun o => profit_pct64 o = fsub (fadd yb nb) (Fin 1)) (filter is_sell64 opps))
  /\ (forall opps, check_multi_outcome_arbitrage64 thr fsum q books ev = Ok opps ->
     exists buy sell,
       opps = buy ++ sell
       /\ multi_buy_block64 thr fsum q books ev = Ok buy
       /\ multi_sell_block64 thr fsum q books ev = Ok sell
       /\ (forall asks, Forall2 (fun nb a => best_ask64 (snd nb) = Ok (Some a)) books asks ->
             (buy <> []
                <-> flt (fsum asks) (Fin 1) = true /\ fle thr (fsub (Fin 1) (fsum asks)) = true)
             /\ Forall (fun o => profit_pct64 o = fsub (Fin 1) (fsum asks)) buy)
       /\ (forall bids, Forall2 (fun nb a => best_bid64 (snd nb) = Ok (Some a)) books bids ->
             (sell <> []
                <-> flt (Fin 1) (fsum bids) = true /\ fle thr (fsub (fsum bids) (Fin 1)) = true)
             /\ Forall (fun o => profit_pct64 o = fsub (fsum bids) (Fin 1)) sell)).
Proof.
  split; [|split].
  - intros ya na opps Ha Hb H. unfold check_binary_arbitrage64 in H.
    destruct (binary_buy_block64 thr market A B) as [bb|e] eqn:Eb; cbn [bind] in H;
      [|discriminate].
    destruct (binary_sell_block64 thr market A B) as [bs|e] eqn:Es; cbn [bind] in H;
      [|discriminate].
    injection H as <-.
    destruct (binary_buy_block64_spec thr market A B ya na bb Ha Hb Eb) as [Hiff HF].
    rewrite filter_app, (filter_all_true is_buy64 bb), (filter_all_false is_buy64 bs).
    + rewrite app_nil_r. split; [exact Hiff|]. eapply Forall_impl; [|exact HF]. now intros o [].
    + eapply Forall_impl; [|exact (binary_sell_block64_types _ _ _ _ _ Es)].
      intros o Ho. unfold is_buy64. now rewrite Ho.
    + eapply Forall_impl; [|exact HF]. intros o [Ho _]. unfold is_buy64. now rewrite Ho.
  - intros yb nb opps Ha Hb H. unfold check_binary_arbitrage64 in H.
    destruct (binary_buy_block64 thr market A B) as [bb|e] eqn:Eb; cbn [bind] in H;
      [|discriminate].
    destruct (binary_sell_block64 thr market A B) as [bs|e] eqn:Es; cbn [bind] in H;
      [|discriminate].
    injection H as <-.
    destruct (binary_sell_block64_spec thr market A B yb nb bs Ha Hb Es) as [Hiff HF].
    rewrite filter_app, (filter_all_false is_sell64 bb), (filter_all_true is_sell64 bs).
    + simpl. split; [exact Hiff|]. eapply Forall_impl; [|exact HF]. now intros o [].
    + eapply Forall_impl; [|exact HF]. intros o [Ho _]. unfold is_sell64. now rewrite Ho.
    + eapply Forall_impl; [|exact (binary_buy_block64_types _ _ _ _ _ Eb)].
      intros o Ho. unfold is_sell64. now rewrite Ho.
  - intros opps H. unfold check_multi_outcome_arbitrage64 in H.
    destruct (multi_buy_block64 thr fsum q books ev) as [mb|e] eqn:Eb; cbn [bind] in H;
      [|discriminate].
    destruct (multi_sell_block64 thr fsum q books ev) as [ms|e] eqn:Es; cbn [bind] in H;
      [|discriminate].
    injection H as <-. exists mb, ms.
    split; [reflexivity|]. split; [reflexivity|]. split; [reflexivity|]. split.
    + intros asks Hf. exact (multi_buy_block64_spec thr fsum q books ev asks mb Hf Eb).
    + intros bids0 Hf. exact (multi_sell_block64_spec thr fsum q books ev bids0 ms Hf Es).
Qed.

(** A profit exactly equal to the threshold (0.25 + 0.5 against 0.25) is
    emitted; the spec's example 0.499 + 0.5 at 0.001 is emitted too, its
    double profit lying just above 0.001; 0.4995 + 0.5 emits nothing,
    its profit being below the threshold. *)
Lemma threshold_inclusive_ieee_witness :
  check_binary_arbitrage64 (round (1 # 4)) (mkMarket "c" "q" "s" [] true 0 "e")
    (ask_book "0.25" "10" "y") (ask_book "0.5" "10" "n")
  = Ok [mkOpportunity64 "q" "BUY" (round (1 # 4)) (Fin 10) (round (5 # 2))
                        (round (1 # 4)) (round (1 # 2)) "e"]
  /\ fsub (Fin 1) (fadd (round (1 # 4)) (round (1 # 2))) = round (1 # 4)
  /\ (exists o, check_binary_arbitrage64 DEFAULT_MIN_PROFIT_THRESHOLD64 (mkMarket "c" "q" "s" [] true 0 "e")
                  (ask_book "0.499" "10" "y") (ask_book "0.5" "10" "n") = Ok [o]
                /\ arb_type64 o = "BUY"
                /\ flt DEFAULT_MIN_PROFIT_THRESHOLD64 (profit_pct64 o) = true)
  /\ check_binary_arbitrage64 DEFAULT_MIN_PROFIT_THRESHOLD64 (mkMarket "c" "q" "s" [] true 0 "e")
       (ask_book "0.4995" "10" "y") (ask_book "0.5" "10" "n") = Ok []
  /\ ([] <> ([] : list Opportunity64)
      <-> flt (fadd (round (4995 # 10000)) (round (1 # 2))) (Fin 1) = true
          /\ fle DEFAULT_MIN_PROFIT_THRESHOLD64
                 (fsub (Fin 1) (fadd (round (4995 # 10000)) (round (1 # 2)))) = true)
  /\ (exists opps,
        check_multi_outcome_arbitrage64 DEFAULT_MIN_PROFIT_THRESHOLD64 sum_left "q"
          three_asks_books "e" = Ok opps
        /\ length opps = 1%nat
        /\ exists buy sell,
        opps = buy ++ sell
        /\ multi_buy_block64 DEFAULT_MIN_PROFIT_THRESHOLD64 sum_left "q" three_asks_books "e" = Ok buy
        /\ multi_sell_block64 DEFAULT_MIN_PROFIT_THRESHOLD64 sum_left "q" three_asks_books "e" = Ok sell
        /\ (forall asks, Forall2 (fun nb a => best_ask64 (snd nb) = Ok (Some a)) three_asks_books asks ->
              (buy <> [] <-> flt (sum_left asks) (Fin 1) = true
                             /\ fle DEFAULT_MIN_PROFIT_THRESHOLD64 (fsub (Fin 1) (sum_left asks)) = true)
              /\ Forall (fun o => profit_pct64 o = fsub (Fin 1) (sum_left asks)) buy)
        /\ (forall bids, Forall2 (fun nb a => best_bid64 (snd nb) = Ok (Some a)) three_asks_books bids ->
              (sell <> [] <-> flt (Fin 1) (sum_left bids) = true
                              /\ fle DEFAULT_MIN_PROFIT_THRESHOLD64 (fsub (sum_left bids) (Fin 1)) = true)
              /\ Forall (fun o => profit_pct64 o = fsub (sum_left bids) (Fin 1)) sell)).
Proof.
  split; [vm_compute; reflexivity|]. split; [vm_compute; reflexivity|].
  split; [eexists; split; [vm_compute; reflexivity|]; split; vm_compute; reflexivity|].
  split; [vm_compute; reflexivity|].
  destruct (threshold_inclusive_ieee DEFAULT_MIN_PROFIT_THRESHOLD64 sum_left (mkMarket "c" "q" "s" [] true 0 "e")
              (ask_book "0.4995" "10" "y") (ask_book "0.5" "10" "n") "q" "e" three_asks_books)
    as [Hbuy [_ Hmulti]].
  split.
  - exact (proj1 (Hbuy (round (4995 # 10000)) (round (1 # 2)) []
                   ltac:(vm_compute; reflexivity) ltac:(vm_compute; reflexivity)
                   ltac:(vm_compute; reflexivity))).
  - eexists. split; [vm_compute; reflexivity|]. split; [reflexivity|].
    apply Hmulti. vm_compute. reflexivity.
Defined.

(** C4 as stated fails for doubles: the asks 0.062 and 0.937 sum to 0.999
    in decimal, but the double profit [1.0 - (0.062 + 0.937)] falls below
    the double 0.001, so the default threshold rejects it and nothing is
    emitted. *)
Lemma threshold_inclusive_counterexample :
  (62 # 1000) + (937 # 1000) == 999 # 1000
  /\ check_binary_arbitrage64 DEFAULT_MIN_PROFIT_THRESHOLD64 (mkMarket "c" "q" "s" [] true 0 "e")
       (ask_book "0.062" "10" "y") (ask_book "0.937" "10" "n") = Ok []
  /\ flt (fadd (round (62 # 1000)) (round (937 # 1000))) (Fin 1) = true
  /\ flt (fsub (Fin 1) (fadd (round (62 # 1000)) (round (937 # 1000))))
         DEFAULT_MIN_PROFIT_THRESHOLD64 = true.
Proof. split; [reflexivity|]. split; [|split]; vm_compute; reflexivity. Qed.









(* ================================================================== *)
(** * Further properties of the code *)

(** ** Market.from_gamma_response *)

Lemma dict_get_dict_eq (kv : list (string * pyval)) (k : string) (dflt : pyval) :
  dict_get (PyDict kv) k dflt
  = Ok (match assoc_lookup k kv with Some v => v | None => dflt end).
Proof. unfold dict_get. destruct (assoc_lookup k kv); reflexivity. Qed.

Lemma dict_getitem_ok_dict (d : pyval) (k : string) (v : pyval) :
  dict_getitem d k = Ok v -> exists kv, d = PyDict kv.
Proof. destruct d; simpl; try discriminate. intros _. now eexists. Qed.

Lemma py_float64_no_attr (v : pyval) : py_float64 v <> Raise AttributeError.
Proof.
  unfold py_float64. destruct v; try discriminate.
  - destruct (Qden (Qred q) =? 1)%positive; [destruct (round q)|]; discriminate.
  - destruct (float_of_text s); discriminate.
Qed.

Lemma dict_getitem_caught (d : pyval) (k : string) (e : exn) :
  dict_getitem d k = Raise e -> gamma_error_caught e = true.
Proof.
  destruct d; simpl; try destruct (assoc_lookup k kv); intros H; try discriminate;
    injection H as <-; reflexivity.
Qed.

Lemma json_loads_caught (jp : string -> option pyval) (v : pyval) (e : exn) :
  json_loads jp v = Raise e -> gamma_error_caught e = true.
Proof.
  destruct v; simpl; try destruct (jp s); intros H; try discriminate;
    injection H as <-; reflexivity.
Qed.

Lemma py_iter_caught (v : pyval) (e : exn) : py_iter v = Raise e -> gamma_error_caught e = true.
Proof. destruct v; simpl; intros H; try discriminate; injection H as <-; reflexivity. Qed.

Lemma py_zip_caught (a b : pyval) (e : exn) : py_zip a b = Raise e -> gamma_error_caught e = true.
Proof.
  unfold py_zip. destruct (py_iter a) as [xs|e'] eqn:Ea; cbn [bind].
  - destruct (py_iter b) as [ys|e'] eqn:Eb; cbn [bind]; [discriminate|].
    intros H. injection H as <-. exact (py_iter_caught b _ Eb).
  - intros H. injection H as <-. exact (py_iter_caught a _ Ea).
Qed.

Lemma event_slug_of_caught (ev : pyval) (e : exn) :
  event_slug_of ev = Raise e -> gamma_error_caught e = true \/ e = AttributeError.
Proof.
  unfold event_slug_of. destruct (truthy ev); [|discriminate].
  destruct ev as [| | | |[|x rest]|kv]; simpl; intros H; try discriminate;
    try (injection H as <-; auto; fail).
  destruct x; simpl in H; try (injection H as <-; auto; fail).
  destruct (assoc_lookup "slug" _); discriminate.
Qed.

(** [events[0].get(...)] raises [AttributeError] only on a non-empty
    string or on a list whose first element is not a dict. *)
Lemma event_slug_of_attr (ev : pyval) :
  event_slug_of ev = Raise AttributeError ->
  (exists s, ev = PyStr s /\ s <> "")
  \/ (exists x rest, ev = PyList (x :: rest) /\ forall kv, x <> PyDict kv).
Proof.
  unfold event_slug_of. destruct (truthy ev) eqn:T; [|discriminate].
  destruct ev as [| | |s|[|x rest]|kv]; simpl in *; try discriminate.
  - intros _. left. exists s. split; [reflexivity|].
    intros ->. discriminate.
  - intros H. right. exists x, rest. split; [reflexivity|].
    intros kv ->. simpl in H. destruct (assoc_lookup "slug" kv); discriminate.
Qed.

(** One statement of a [try] body that ends in an exception the [except]
    clause does not catch ([C]): the statement did not raise. *)
Ltac caught_step B C :=
  match type of B with
  | bind ?m _ = _ =>
      let E := fresh "E" in
      let Hx := fresh "Hx" in
      destruct m eqn:E; cbn [bind] in B;
      [| injection B as Hx; subst;
         first [ rewrite (dict_getitem_caught _ _ _ E) in C
               | rewrite (json_loads_caught _ _ _ E) in C
               | rewrite (py_zip_caught _ _ _ E) in C ]; discriminate C ]
  end.

(** One statement of a body that returns normally. *)
Ltac ok_step B :=
  match type of B with
  | bind ?m _ = _ =>
      let E := fresh "E" in
      destruct m eqn:E; cbn [bind] in B; [| discriminate B]
  end.

Lemma from_gamma_response_some (jp : string -> option pyval) (data : pyval) (m : GammaMarket) :
  from_gamma_response jp data = Ok (Some m) -> from_gamma_body jp data = Ok m.
Proof.
  unfold from_gamma_response. destruct (from_gamma_body jp data) as [m'|e].
  - intros H. now injection H as ->.
  - destruct (gamma_error_caught e); discriminate.
Qed.

(** The volume stored in a parsed market is [float(data.get("volume", 0))]. *)
Lemma from_gamma_volume (jp : string -> option pyval) (data v : pyval) (x : f64) (m : GammaMarket) :
  from_gamma_response jp data = Ok (Some m) ->
  dict_get data "volume" (PyNum 0) = Ok v -> py_float64 v = Ok x -> gm_volume m = x.
Proof.
  intros H Ev Ex. apply from_gamma_response_some in H. unfold from_gamma_body in H.
  ok_step H. destruct (dict_getitem_ok_dict _ _ _ E) as [kv ->].
  rewrite !dict_get_dict_eq in H. rewrite dict_get_dict_eq in Ev.
  injection Ev as <-. cbn [bind] in H.
  ok_step H. rewrite Ex in H. cbn [bind] in H.
  ok_step H. ok_step H. ok_step H. cbn [bind] in H. ok_step H. cbn [bind] in H.
  ok_step H. cbn [bind] in H. ok_step H. injection H as <-. reflexivity.
Qed.

(** [from_gamma_response] returns [None], and raises nothing, on a
    payload that is not a dict or lacks "conditionId" or "question". *)
Theorem from_gamma_response_missing_required (jp : string -> option pyval) (data : pyval) :
  (forall kv, data = PyDict kv ->
     assoc_lookup "conditionId" kv = None \/ assoc_lookup "question" kv = None) ->
  from_gamma_response jp data = Ok None.
Proof.
  intros H. unfold from_gamma_response, from_gamma_body.
  destruct data as [| | | | |kv]; try reflexivity.
  destruct (H kv eq_refl) as [E|E]; cbn [dict_getitem].
  - rewrite E. reflexivity.
  - destruct (assoc_lookup "conditionId" kv); cbn [bind]; [|reflexivity].
    rewrite E. reflexivity.
Qed.

Lemma from_gamma_response_missing_required_witness :
  from_gamma_response (table_json_parse sample_json)
    (PyDict [("conditionId", PyStr "c"); ("clobTokenIds", PyStr "[]")]) = Ok None.
Proof.
  apply from_gamma_response_missing_required.
  intros kv H. injection H as <-. right. reflexivity.
Defined.

(** [from_gamma_response] lets two exceptions escape, both on a dict
    payload: [AttributeError] from [events[0].get], when "events" is a
    non-empty string or a list whose first element is not a dict; and
    [OverflowError] from [float(volume)], when "volume" is an integer
    beyond the range of doubles. *)
Theorem from_gamma_response_raises (jp : string -> option pyval) (data : pyval) (e : exn) :
  from_gamma_response jp data = Raise e ->
  exists kv, data = PyDict kv
  /\ ((e = AttributeError
       /\ exists ev, assoc_lookup "events" kv = Some ev
          /\ ((exists s, ev = PyStr s /\ s <> "")
              \/ (exists x rest, ev = PyList (x :: rest) /\ forall kv', x <> PyDict kv')))
      \/ (e = OverflowError
          /\ exists q, assoc_lookup "volume" kv = Some (PyNum q)
             /\ py_float64 (PyNum q) = Raise OverflowError)).
Proof.
  unfold from_gamma_response. destruct (from_gamma_body jp data) as [m|e0] eqn:B;
    [discriminate|].
  intros H. destruct (gamma_error_caught e0) eqn:C; [discriminate|]. injection H as <-.
  unfold from_gamma_body in B.
  caught_step B C. destruct (dict_getitem_ok_dict _ _ _ E) as [kv ->].
  exists kv. split; [reflexivity|].
  rewrite !dict_get_dict_eq in B. cbn [bind] in B.
  caught_step B C.
  destruct (py_float64 (match assoc_lookup "volume" kv with Some v => v | None => PyNum 0 end))
    as [vol|x] eqn:Ev; cbn [bind] in B.
  2:{ injection B as Hx. subst x. right.
      destruct (assoc_lookup "volume" kv) as [v|] eqn:Hv; [|discriminate Ev].
      destruct e0; try discriminate C.
      - exfalso. exact (py_float64_no_attr v Ev).
      - split; [reflexivity|]. destruct v; try discriminate Ev.
        + exists q. split; [reflexivity|exact Ev].
        + simpl in Ev. destruct (float_of_text s); discriminate Ev. }
  destruct (assoc_lookup "events" kv) as [ev|] eqn:Eev.
  - destruct (event_slug_of ev) as [es|x] eqn:Es; cbn [bind] in B.
    + repeat (cbn [bind] in B; caught_step B C). discriminate B.
    + injection B as Hx. subst x. left.
      destruct (event_slug_of_caught ev e0 Es) as [Hc| ->]; [congruence|].
      split; [reflexivity|]. exists ev. split; [reflexivity|].
      apply event_slug_of_attr. exact Es.
  - cbn [event_slug_of truthy length Nat.eqb negb bind] in B.
    repeat (cbn [bind] in B; caught_step B C). discriminate B.
Qed.

(** A non-empty string "events", and a 400-digit volume. *)
Lemma from_gamma_response_raises_witness :
  from_gamma_response (table_json_parse sample_json)
    (PyDict [("conditionId", PyStr "c"); ("question", PyStr "q");
             ("events", PyStr "e"); ("clobTokenIds", PyStr "[]")]) = Raise AttributeError
  /\ from_gamma_response (table_json_parse sample_json)
       (PyDict [("conditionId", PyStr "c"); ("question", PyStr "q");
                ("volume", PyNum (inject_Z (10 ^ 400))); ("clobTokenIds", PyStr "[]")])
     = Raise OverflowError
  /\ exists kv, PyDict [("conditionId", PyStr "c"); ("question", PyStr "q");
                        ("volume", PyNum (inject_Z (10 ^ 400)));
                        ("clobTokenIds", PyStr "[]")] = PyDict kv
     /\ ((OverflowError = AttributeError
          /\ exists ev, assoc_lookup "events" kv = Some ev
             /\ ((exists s, ev = PyStr s /\ s <> "")
                 \/ (exists x rest, ev = PyList (x :: rest) /\ forall kv', x <> PyDict kv')))
        \/ (OverflowError = OverflowError
            /\ exists q, assoc_lookup "volume" kv = Some (PyNum q)
               /\ py_float64 (PyNum q) = Raise OverflowError)).
Proof.
  split; [vm_compute; reflexivity|]. split; [vm_compute; reflexivity|].
  apply (from_gamma_response_raises (table_json_parse sample_json)).
  vm_compute. reflexivity.
Defined.

Lemma length_map_combine {A B C : Type} (f : A * B -> C) (xs : list A) (ys : list B) :
  length (map f (combine xs ys)) = Nat.min (length xs) (length ys).
Proof. rewrite length_map. apply length_combine. Qed.

(** A parsed market pairs the i-th parsed token id with the i-th parsed
    outcome and drops what the longer list has beyond the shorter one: it
    has min(#ids, #outcomes) tokens.  In particular a payload with no
    "outcomes" key gives a market with no tokens. *)
Theorem from_gamma_response_tokens (jp : string -> option pyval) (data : pyval)
    (m : GammaMarket) :
  from_gamma_response jp data = Ok (Some m) ->
  exists kv ids_raw token_ids outcomes_raw outcomes xs ys,
    data = PyDict kv
    /\ assoc_lookup "clobTokenIds" kv = Some ids_raw
    /\ json_loads jp ids_raw = Ok token_ids
    /\ dict_get data "outcomes" (PyStr "[]") = Ok outcomes_raw
    /\ json_loads jp outcomes_raw = Ok outcomes
    /\ py_iter token_ids = Ok xs /\ py_iter outcomes = Ok ys
    /\ gm_tokens m = map token_dict (combine xs ys)
    /\ length (gm_tokens m) = Nat.min (length xs) (length ys)
    /\ (assoc_lookup "outcomes" kv = None -> jp "[]" = Some (PyList []) -> gm_tokens m = []).
Proof.
  intros H. apply from_gamma_response_some in H. unfold from_gamma_body in H.
  ok_step H. destruct (dict_getitem_ok_dict _ _ _ E) as [kv ->].
  rewrite !dict_get_dict_eq in H. cbn [bind] in H.
  ok_step H. ok_step H. ok_step H.
  destruct (dict_getitem (PyDict kv) "clobTokenIds") as [ids_raw|x] eqn:Eids;
    cbn [bind] in H; [|discriminate].
  destruct (json_loads jp ids_raw) as [token_ids|x] eqn:Etok; cbn [bind] in H;
    [|discriminate].
  ok_step H. cbn [bind] in H.
  destruct (json_loads jp (match assoc_lookup "outcomes" kv with Some v => v
                           | None => PyStr "[]" end)) as [outcomes|x] eqn:Eout;
    cbn [bind] in H; [|discriminate].
  destruct (py_zip token_ids outcomes) as [pairs|x] eqn:Ez; cbn [bind] in H; [|discriminate].
  injection H as <-. unfold py_zip in Ez.
  destruct (py_iter token_ids) as [xs|x] eqn:Exs; cbn [bind] in Ez; [|discriminate].
  destruct (py_iter outcomes) as [ys|x] eqn:Eys; cbn [bind] in Ez; [|discriminate].
  injection Ez as <-.
  exists kv, ids_raw, token_ids, (match assoc_lookup "outcomes" kv with Some v => v
                          | None => PyStr "[]" end), outcomes, xs, ys.
  cbn [dict_getitem] in Eids. destruct (assoc_lookup "clobTokenIds" kv); [|discriminate].
  injection Eids as <-.
  split; [reflexivity|]. split; [reflexivity|]. split; [exact Etok|].
  split; [apply dict_get_dict_eq|]. split; [exact Eout|]. split; [exact Exs|].
  split; [exact Eys|]. split; [reflexivity|]. split; [apply length_map_combine|].
  intros Hn Hj. rewrite Hn in Eout. simpl in Eout. rewrite Hj in Eout.
  injection Eout as <-. simpl in Eys. injection Eys as <-.
  cbn [gm_tokens]. rewrite combine_nil. reflexivity.
Qed.

Lemma from_gamma_response_tokens_witness :
  exists m,
    from_gamma_response (table_json_parse sample_json)
      (PyDict [("conditionId", PyStr "c"); ("question", PyStr "q");
               ("clobTokenIds", PyStr ids3_json);
               ("outcomes", PyStr yes_no_json)]) = Ok (Some m)
    /\ length (gm_tokens m) = 2%nat
    /\ exists kv ids_raw token_ids outcomes_raw outcomes xs ys,
    PyDict [("conditionId", PyStr "c"); ("question", PyStr "q");
            ("clobTokenIds", PyStr ids3_json);
            ("outcomes", PyStr yes_no_json)] = PyDict kv
    /\ assoc_lookup "clobTokenIds" kv = Some ids_raw
    /\ json_loads (table_json_parse sample_json) ids_raw = Ok token_ids
    /\ dict_get (PyDict [("conditionId", PyStr "c"); ("question", PyStr "q");
                         ("clobTokenIds", PyStr ids3_json);
                         ("outcomes", PyStr yes_no_json)]) "outcomes" (PyStr "[]")
       = Ok outcomes_raw
    /\ json_loads (table_json_parse sample_json) outcomes_raw = Ok outcomes
    /\ py_iter token_ids = Ok xs /\ py_iter outcomes = Ok ys
    /\ gm_tokens m = map token_dict (combine xs ys)
    /\ length (gm_tokens m) = Nat.min (length xs) (length ys)
    /\ (assoc_lookup "outcomes" kv = None -> table_json_parse sample_json "[]" = Some (PyList []) ->
        gm_tokens m = []).
Proof.
  eexists. split; [vm_compute; reflexivity|]. split; [reflexivity|].
  apply from_gamma_response_tokens. vm_compute. reflexivity.
Defined.

(** ** api.py: fetch_active_markets *)

Lemma active_markets_loop_kept (jp : string -> option pyval) (minv : f64)
    (raws : list pyval) (ms : list GammaMarket) :
  active_markets_loop jp minv raws = Ok ms ->
  exists kept,
    subseq kept raws
    /\ Forall2 (fun raw m => from_gamma_response jp raw = Ok (Some m)
                  /\ flt (gm_volume m) minv = false
                  /\ exists c, dict_get raw "clobTokenIds" PyNone = Ok c /\ truthy c = true)
               kept ms.
Proof.
  revert ms. induction raws as [|raw rest IH]; simpl; intros ms H.
  - injection H as <-. exists []. split; constructor.
  - destruct (dict_get raw "volume" (PyNum 0)) as [v|x] eqn:Ev; cbn [bind] in H;
      [|discriminate].
    destruct (py_float64 v) as [vol|x] eqn:Evol; cbn [bind] in H; [|discriminate].
    destruct (flt vol minv) eqn:Elt.
    { destruct (IH ms H) as [kept [Hs Hf]]. exists kept. split; [now constructor|exact Hf]. }
    destruct (dict_get raw "clobTokenIds" PyNone) as [c|x] eqn:Ec; cbn [bind] in H;
      [|discriminate].
    destruct (truthy c) eqn:Tc; simpl in H.
    2:{ destruct (IH ms H) as [kept [Hs Hf]]. exists kept. split; [now constructor|exact Hf]. }
    destruct (from_gamma_response jp raw) as [o|x] eqn:Eo; cbn [bind] in H; [|discriminate].
    destruct (active_markets_loop jp minv rest) as [ms'|x] eqn:Er; cbn [bind] in H;
      [|discriminate].
    injection H as <-. destruct (IH ms' eq_refl) as [kept [Hs Hf]].
    destruct o as [m|].
    + exists (raw :: kept). split; [now constructor|]. constructor; [|exact Hf].
      split; [exact Eo|]. split.
      * rewrite (from_gamma_volume jp raw v vol m Eo Ev Evol). exact Elt.
      * exists c. split; assumption.
    + exists kept. split; [now constructor|exact Hf].
Qed.

(** The markets [fetch_active_markets] returns are, in input order, those
    raw entries it keeps: each has a volume that is not below [MIN_VOLUME]
    ([volume < MIN_VOLUME] is false, which a NaN volume also passes), a
    truthy "clobTokenIds", and parses with [from_gamma_response]. *)
Theorem fetch_active_markets_kept (jp : string -> option pyval) (minv : f64)
    (raw_markets : pyval) (ms : list GammaMarket) :
  fetch_active_markets jp minv raw_markets = Ok ms ->
  exists raws kept,
    py_iter raw_markets = Ok raws
    /\ subseq kept raws
    /\ Forall2 (fun raw m => from_gamma_response jp raw = Ok (Some m)
                  /\ flt (gm_volume m) minv = false
                  /\ exists c, dict_get raw "clobTokenIds" PyNone = Ok c /\ truthy c = true)
               kept ms.
Proof.
  unfold fetch_active_markets. intros H.
  destruct (py_iter raw_markets) as [raws|x] eqn:Er; cbn [bind] in H; [|discriminate].
  destruct (active_markets_loop_kept jp minv raws ms H) as [kept [Hs Hf]].
  exists raws, kept. split; [reflexivity|]. split; assumption.
Qed.

(** Three raw markets: one below the volume floor, one above it, and one
    with volume "nan", which is kept. *)
Lemma fetch_active_markets_kept_witness :
  exists ms,
    fetch_active_markets (table_json_parse sample_json) (Fin 10000)
      (PyList [PyDict [("conditionId", PyStr "c1"); ("question", PyStr "q1");
                       ("volume", PyStr "50"); ("clobTokenIds", PyStr "[]")];
               PyDict [("conditionId", PyStr "c2"); ("question", PyStr "q2");
                       ("volume", PyStr "25000.5");
                       ("clobTokenIds", PyStr ids3_json)];
               PyDict [("conditionId", PyStr "c3"); ("question", PyStr "q3");
                       ("volume", PyStr "nan");
                       ("clobTokenIds", PyStr ids3_json)]]) = Ok ms
    /\ map gm_question ms = [PyStr "q2"; PyStr "q3"]
    /\ map gm_volume ms = [Fin (50001 # 2); NaN]
    /\ exists raws kept,
      py_iter (PyList [PyDict [("conditionId", PyStr "c1"); ("question", PyStr "q1");
                       ("volume", PyStr "50"); ("clobTokenIds", PyStr "[]")];
                       PyDict [("conditionId", PyStr "c2"); ("question", PyStr "q2");
                       ("volume", PyStr "25000.5");
                       ("clobTokenIds", PyStr ids3_json)];
                       PyDict [("conditionId", PyStr "c3"); ("question", PyStr "q3");
                       ("volume", PyStr "nan");
                       ("clobTokenIds", PyStr ids3_json)]]) = Ok raws
      /\ subseq kept raws
      /\ Forall2 (fun raw m => from_gamma_response (table_json_parse sample_json) raw = Ok (Some m)
                    /\ flt (gm_volume m) (Fin 10000) = false
                    /\ exists c, dict_get raw "clobTokenIds" PyNone = Ok c /\ truthy c = true)
                 kept ms.
Proof.
  eexists. split; [vm_compute; reflexivity|]. split; [reflexivity|].
  split; [vm_compute; reflexivity|].
  apply fetch_active_markets_kept. vm_compute. reflexivity.
Defined.

Lemma active_markets_loop_app_raise (jp : string -> option pyval) (minv : f64)
    (pre rest : list pyval) (ms0 : list GammaMarket) (e : exn) :
  active_markets_loop jp minv pre = Ok ms0 ->
  active_markets_loop jp minv rest = Raise e ->
  active_markets_loop jp minv (pre ++ rest) = Raise e.
Proof.
  revert ms0. induction pre as [|raw pre IH]; simpl; intros ms0 H Hr; [exact Hr|].
  destruct (dict_get raw "volume" (PyNum 0)) as [v|x]; cbn [bind] in *; [|discriminate].
  destruct (py_float64 v) as [vol|x]; cbn [bind] in *; [|discriminate].
  destruct (flt vol minv); [exact (IH ms0 H Hr)|].
  destruct (dict_get raw "clobTokenIds" PyNone) as [c|x]; cbn [bind] in *; [|discriminate].
  destruct (negb (truthy c)); [exact (IH ms0 H Hr)|].
  destruct (from_gamma_response jp raw) as [o|x]; cbn [bind] in *; [|discriminate].
  destruct (active_markets_loop jp minv pre) as [ms'|x] eqn:Ep; cbn [bind] in *;
    [|discriminate].
  rewrite (IH ms' eq_refl Hr). reflexivity.
Qed.

(** [fetch_active_markets] converts each entry's volume outside any [try]:
    once the entries before it went through, an entry that is not a dict
    makes the whole call raise [AttributeError], and a volume that
    [float] rejects makes it raise what [float] raises ([ValueError] for a
    string it does not parse, [TypeError] for null, [OverflowError] for an
    integer beyond the range of doubles); the entry is not skipped. *)
Theorem fetch_active_markets_escapes (jp : string -> option pyval) (minv : f64)
    (pre : list pyval) (raw : pyval) (post : list pyval) (ms0 : list GammaMarket) :
  active_markets_loop jp minv pre = Ok ms0 ->
  ((forall kv, raw <> PyDict kv) ->
     fetch_active_markets jp minv (PyList (pre ++ raw :: post)) = Raise AttributeError)
  /\ (forall kv v e, raw = PyDict kv -> assoc_lookup "volume" kv = Some v ->
        py_float64 v = Raise e ->
        fetch_active_markets jp minv (PyList (pre ++ raw :: post)) = Raise e).
Proof.
  intros Hpre. unfold fetch_active_markets. cbn [py_iter bind].
  split.
  - intros Hnd. apply (active_markets_loop_app_raise jp minv pre _ ms0 _ Hpre).
    simpl. destruct raw; try reflexivity. exfalso. exact (Hnd kv eq_refl).
  - intros kv v e -> Hv He. apply (active_markets_loop_app_raise jp minv pre _ ms0 _ Hpre).
    simpl. rewrite Hv. cbn [bind]. rewrite He. reflexivity.
Qed.

(** A kept-out first entry, then volumes "n/a", null and a 400-digit integer. *)
Lemma fetch_active_markets_escapes_witness :
  py_float64 (PyStr "n/a") = Raise ValueError
  /\ py_float64 PyNone = Raise TypeError
  /\ py_float64 (PyNum (inject_Z (10 ^ 400))) = Raise OverflowError
  /\ ((forall kv, PyStr "oops" <> PyDict kv) ->
      fetch_active_markets (table_json_parse sample_json) (Fin 10000)
        (PyList ([PyDict [("conditionId", PyStr "c1"); ("question", PyStr "q1");
                          ("volume", PyStr "50")]] ++ PyStr "oops" :: [])) = Raise AttributeError)
  /\ (forall kv v e, PyDict [("volume", PyNum (inject_Z (10 ^ 400)))] = PyDict kv ->
        assoc_lookup "volume" kv = Some v -> py_float64 v = Raise e ->
        fetch_active_markets (table_json_parse sample_json) (Fin 10000)
          (PyList ([PyDict [("conditionId", PyStr "c1"); ("question", PyStr "q1");
                            ("volume", PyStr "50")]]
                   ++ PyDict [("volume", PyNum (inject_Z (10 ^ 400)))] :: [])) = Raise e).
Proof.
  split; [vm_compute; reflexivity|]. split; [vm_compute; reflexivity|].
  split; [vm_compute; reflexivity|].
  destruct (fetch_active_markets_escapes (table_json_parse sample_json) (Fin 10000)
              [PyDict [("conditionId", PyStr "c1"); ("question", PyStr "q1");
                       ("volume", PyStr "50")]]
              (PyStr "oops") [] [] ltac:(vm_compute; reflexivity)) as [H1 _].
  split; [exact H1|].
  apply (fetch_active_markets_escapes (table_json_parse sample_json) (Fin 10000) _ _ _ []).
  vm_compute. reflexivity.
Defined.

(** ** cli.py: format_table *)

Lemma str_length_app (s1 s2 : string) :
  String.length (s1 ++ s2) = (String.length s1 + String.length s2)%nat.
Proof. induction s1 as [|c s1 IH]; simpl; [reflexivity | now rewrite IH]. Qed.

Lemma str_app_nil_r (s : string) : (s ++ "")%string = s.
Proof. induction s as [|c s IH]; simpl; [reflexivity | now rewrite IH]. Qed.

Lemma repeat_char_length (c : ascii) (n : nat) : String.length (repeat_char c n) = n.
Proof. induction n as [|n IH]; simpl; [reflexivity | now rewrite IH]. Qed.

Lemma substring0_length (n : nat) (s : string) :
  (n <= String.length s)%nat -> String.length (substring 0 n s) = n.
Proof.
  revert n. induction s as [|c s IH]; intros [|n] H; simpl in *; try reflexivity; try lia.
  rewrite IH; [reflexivity | lia].
Qed.

Lemma ljust_length (w : nat) (s : string) :
  (String.length s <= w)%nat -> String.length (ljust w s) = w.
Proof. intros H. unfold ljust. rewrite str_length_app, repeat_char_length. lia. Qed.

Lemma market_cell_length (q : string) :
  (String.length (market_cell q) <= COLUMN_MARKET_WIDTH)%nat.
Proof.
  unfold market_cell. destruct (Nat.ltb COLUMN_MARKET_WIDTH (String.length q)) eqn:E.
  - apply Nat.ltb_lt in E. rewrite str_length_app, substring0_length.
    + unfold COLUMN_MARKET_WIDTH. simpl. lia.
    + unfold COLUMN_MARKET_WIDTH in *. lia.
  - apply Nat.ltb_ge in E. exact E.
Qed.

(** Every row of the table starts with a market cell of exactly 50
    characters (code points) and a blank: a question of at most 50 characters is padded
    with blanks, a longer one is cut to its first 47 characters followed
    by "...". *)
Theorem format_row_market_cell (fmt : nat -> Q -> string) (o : Opportunity) :
  exists cell rest,
    format_row fmt o = (cell ++ " " ++ rest)%string
    /\ String.length cell = COLUMN_MARKET_WIDTH
    /\ ((String.length (market_question o) <= COLUMN_MARKET_WIDTH)%nat ->
        cell = (market_question o
                ++ repeat_char " "%char (COLUMN_MARKET_WIDTH - String.length (market_question o)))%string)
    /\ ((COLUMN_MARKET_WIDTH < String.length (market_question o))%nat ->
        cell = (substring 0 (COLUMN_MARKET_WIDTH - 3) (market_question o) ++ "...")%string).
Proof.
  eexists (ljust COLUMN_MARKET_WIDTH (market_cell (market_question o))), _.
  split; [reflexivity|]. split; [apply ljust_length, market_cell_length|].
  split; intros H; unfold ljust, market_cell.
  - apply Nat.ltb_ge in H. rewrite H. reflexivity.
  - pose proof H as Hb. apply Nat.ltb_lt in Hb. rewrite Hb, str_length_app, substring0_length.
    + unfold COLUMN_MARKET_WIDTH in *. simpl. apply str_app_nil_r.
    + unfold COLUMN_MARKET_WIDTH in *. lia.
Qed.

(** A question of 26 times U+00E9 is padded with 24 blanks; one of 60
    characters is cut to 47 and "...". *)
Lemma format_row_market_cell_witness :
  (exists rest,
     format_row (fun _ _ => "0") (mkOpportunity (repeat_char "233"%char 26) "BUY" 0 0 0 0 0 "e")
     = (repeat_char "233"%char 26 ++ repeat_char " "%char 24 ++ " " ++ rest)%string)
  /\ exists cell rest,
    format_row (fun _ _ => "0") (mkOpportunity (repeat_char "a"%char 60) "BUY" 0 0 0 0 0 "e")
    = (cell ++ " " ++ rest)%string
    /\ String.length cell = COLUMN_MARKET_WIDTH
    /\ ((String.length (repeat_char "a"%char 60) <= COLUMN_MARKET_WIDTH)%nat ->
        cell = (repeat_char "a"%char 60
                ++ repeat_char " "%char (COLUMN_MARKET_WIDTH - String.length (repeat_char "a"%char 60)))%string)
    /\ ((COLUMN_MARKET_WIDTH < String.length (repeat_char "a"%char 60))%nat ->
        cell = (substring 0 (COLUMN_MARKET_WIDTH - 3) (repeat_char "a"%char 60) ++ "...")%string).
Proof.
  split; [eexists; vm_compute; reflexivity|].
  exact (format_row_market_cell (fun _ _ => "0")
           (mkOpportunity (repeat_char "a"%char 60) "BUY" 0 0 0 0 0 "e")).
Defined.

Lemma count_char_app (c : ascii) (s1 s2 : string) :
  count_char c (s1 ++ s2) = (count_char c s1 + count_char c s2)%nat.
Proof. induction s1 as [|c' s1 IH]; simpl; [reflexivity | rewrite IH; lia]. Qed.

Lemma count_char_repeat (c d : ascii) (n : nat) :
  c <> d -> count_char c (repeat_char d n) = 0%nat.
Proof.
  intros Hcd. induction n as [|n IH]; simpl; [reflexivity|].
  rewrite IH. destruct (Ascii.eqb_spec c d); [contradiction | reflexivity].
Qed.

Lemma count_char_substring0 (c : ascii) (n : nat) (s : string) :
  (count_char c (substring 0 n s) <= count_char c s)%nat.
Proof.
  revert n. induction s as [|c' s IH]; intros [|n]; simpl; try lia.
  specialize (IH n). lia.
Qed.

Lemma count_char_fold_join (c : ascii) (sep : string) (parts : list string) (acc : string) :
  count_char c (fold_left (fun a x => (a ++ sep ++ x)%string) parts acc)
  = (count_char c acc + length parts * count_char c sep
     + fold_right (fun x n => count_char c x + n) 0 parts)%nat.
Proof.
  revert acc. induction parts as [|p ps IH]; intros acc; simpl; [lia|].
  rewrite IH, !count_char_app. lia.
Qed.

Lemma count_nl_row (fmt : nat -> Q -> string) (o : Opportunity) :
  count_char nl_char (market_question o) = 0%nat -> count_char nl_char (arb_type o) = 0%nat ->
  (forall p x, count_char nl_char (fmt p x) = 0%nat) ->
  count_char nl_char (format_row fmt o) = 0%nat.
Proof.
  intros Hq Ht Hf.
  assert (Hsp : forall n, count_char nl_char (repeat_char " "%char n) = 0%nat)
    by (intros n; apply count_char_repeat; discriminate).
  assert (Hc : count_char nl_char (market_cell (market_question o)) = 0%nat).
  { unfold market_cell. destruct (Nat.ltb _ _); [|exact Hq].
    rewrite count_char_app. pose proof (count_char_substring0 nl_char 47 (market_question o)).
    simpl. lia. }
  unfold format_row, ljust, rjust. rewrite !count_char_app.
  rewrite Hc, Ht, !Hsp, !Hf. reflexivity.
Qed.

(** When no question, type or rendered number contains a line break, the
    table has exactly one line break per opportunity plus the one after the
    header: a header line, a separator line and one line per opportunity. *)
Theorem format_table_line_count (fmt : nat -> Q -> string) (opps : list Opportunity) :
  (forall o, In o opps ->
     count_char nl_char (market_question o) = 0%nat /\ count_char nl_char (arb_type o) = 0%nat) ->
  (forall p x, count_char nl_char (fmt p x) = 0%nat) ->
  count_char nl_char (format_table fmt opps) = S (length opps).
Proof.
  intros Ho Hf. unfold format_table, py_join. rewrite count_char_fold_join.
  assert (Hrows : fold_right (fun x n => (count_char nl_char x + n)%nat) 0%nat
                    (map (format_row fmt) opps) = 0%nat).
  { induction opps as [|o os IH]; simpl; [reflexivity|].
    destruct (Ho o (or_introl eq_refl)) as [Hq Ht]. rewrite (count_nl_row fmt o Hq Ht Hf).
    apply IH. intros o' Hin. apply Ho. now right. }
  simpl length. rewrite length_map. cbn [fold_right]. rewrite Hrows.
  rewrite count_char_repeat by discriminate.
  vm_compute (count_char nl_char header). vm_compute (count_char nl_char newline). lia.
Qed.

Lemma format_table_line_count_witness :
  (forall o, In o [mkOpportunity "Will it rain?" "BUY" (5 # 100) 80 4 (45 # 100) (1 # 2) "e";
                   mkOpportunity "Who wins?" "MULTI" (1 # 10) 50 5 (9 # 10) 0 "e"] ->
     count_char nl_char (market_question o) = 0%nat /\ count_char nl_char (arb_type o) = 0%nat)
  /\ (forall p x, count_char nl_char (fixed_zero p x) = 0%nat)
  /\ count_char nl_char
       (format_table fixed_zero
          [mkOpportunity "Will it rain?" "BUY" (5 # 100) 80 4 (45 # 100) (1 # 2) "e";
           mkOpportunity "Who wins?" "MULTI" (1 # 10) 50 5 (9 # 10) 0 "e"])
     = S (length [mkOpportunity "Will it rain?" "BUY" (5 # 100) 80 4 (45 # 100) (1 # 2) "e";
                  mkOpportunity "Who wins?" "MULTI" (1 # 10) 50 5 (9 # 10) 0 "e"]).
Proof.
  assert (Ho : forall o, In o [mkOpportunity "Will it rain?" "BUY" (5 # 100) 80 4 (45 # 100) (1 # 2) "e";
                               mkOpportunity "Who wins?" "MULTI" (1 # 10) 50 5 (9 # 10) 0 "e"] ->
     count_char nl_char (market_question o) = 0%nat /\ count_char nl_char (arb_type o) = 0%nat).
  { intros o [<-|[<-|[]]]; split; reflexivity. }
  assert (Hf : forall p x, count_char nl_char (fixed_zero p x) = 0%nat)
    by (intros; reflexivity).
  split; [exact Ho|]. split; [exact Hf|].
  exact (format_table_line_count fixed_zero _ Ho Hf).
Defined.

(** ** Invariants of the reported opportunities *)










(** ** The report printed after a scan *)






(** ** Markets the scan loop skips *)

Lemma collect_books_missing (obs : list (string * OrderBook)) (toks : list Token) :
  (exists t, In t toks /\ assoc_lookup (tok_token_id t) obs = None) ->
  collect_books obs toks = None.
Proof.
  intros [t [Hin Ht]]. induction toks as [|t' ts IH]; [destruct Hin|].
  simpl. destruct Hin as [<-|Hin]; [now rewrite Ht|].
  destruct (assoc_lookup (tok_token_id t') obs); [|reflexivity].
  now rewrite (IH Hin).
Qed.

(** A market with fewer than two tokens, or with a token whose order book
    was not fetched, contributes no opportunity and raises nothing. *)
Theorem scan_market_skips (thr : Q) (obs : list (string * OrderBook)) (m : Market) :
  ((length (tokens m) < 2)%nat
   \/ exists t, In t (tokens m) /\ assoc_lookup (tok_token_id t) obs = None) ->
  scan_market thr obs m = Ok [].
Proof.
  unfold scan_market. intros H.
  destruct (tokens m) as [|t1 [|t2 [|t3 ts]]] eqn:Et; try reflexivity.
  - destruct H as [H|[t [Hin Ht]]]; [simpl in H; lia|].
    destruct Hin as [<-|[<-|[]]]; rewrite Ht; [reflexivity|].
    destruct (assoc_lookup (tok_token_id t1) obs); reflexivity.
  - destruct H as [H|Hm]; [simpl in H; lia|].
    rewrite <- Et, collect_books_missing; [reflexivity|]. now rewrite Et.
Qed.

Lemma scan_market_skips_witness :
  scan_market DEFAULT_MIN_PROFIT_THRESHOLD [("y", ask_book "0.40" "10" "y")]
    (mkMarket "c" "q" "s" [mkToken "y" "Yes"; mkToken "n" "No"; mkToken "d" "Draw"] true 0 "e")
  = Ok [].
Proof.
  apply scan_market_skips. right. exists (mkToken "n" "No"). split.
  - simpl. auto.
  - reflexivity.
Defined.

(** ** The multi-outcome detector on no books *)

(** With an empty list of books, [all] holds vacuously and the sum of asks
    is 0, a profit of 1.0: when the threshold admits it, [min] of no sizes
    raises [ValueError]; a threshold above 1.0 gives no opportunity. *)
Theorem check_multi_outcome_no_books (thr : Q) (q ev : string) :
  (thr <= 1 -> check_multi_outcome_arbitrage thr q [] ev = Raise ValueError)
  /\ (1 < thr -> check_multi_outcome_arbitrage thr q [] ev = Ok []).
Proof.
  unfold check_multi_outcome_arbitrage, multi_buy_block, multi_sell_block. simpl.
  split; intros H.
  - assert (E : Qle_bool thr (1 - 0) = true) by (apply Qle_bool_iff; exact H).
    now rewrite E.
  - destruct (Qle_bool thr (1 - 0)) eqn:E; [|reflexivity].
    apply Qle_bool_iff in E. exfalso. exact (Qlt_not_le _ _ H E).
Qed.

(** ** Order books built from a response without one of its ladders *)

Lemma dict_get_falsy_default (kv : list (string * pyval)) (k : string) :
  exists v, dict_get (PyDict kv) k (PyList []) = Ok v
  /\ ((forall v', assoc_lookup k kv = Some v' -> truthy v' = false) ->
      py_or v (PyList []) = PyList []).
Proof.
  simpl. destruct (assoc_lookup k kv) as [v|]; eexists; split; try reflexivity.
  intros H. unfold py_or. now rewrite (H v eq_refl).
Qed.

(** When a response dict has no ["bids"] key, or a falsy value there
    ([None], [0], [""], [[]], [{}]), the book has no bids and [best_bid] and
    [best_bid_size] are [None]; likewise for ["asks"].  The token id is the
    one requested. *)
Theorem from_api_response_empty_sides (kv : list (string * pyval)) (t : string)
    (ob : OrderBook) :
  from_api_response (PyDict kv) t = Ok ob ->
  token_id ob = t
  /\ ((forall v, assoc_lookup "bids" kv = Some v -> truthy v = false) ->
      bids ob = [] /\ best_bid ob = Ok None /\ best_bid_size ob = Ok None)
  /\ ((forall v, assoc_lookup "asks" kv = Some v -> truthy v = false) ->
      asks ob = [] /\ best_ask ob = Ok None /\ best_ask_size ob = Ok None).
Proof.
  intros H. unfold from_api_response in H.
  destruct (dict_get_falsy_default kv "bids") as [b [Eb0 Fb]].
  destruct (dict_get_falsy_default kv "asks") as [a [Ea0 Fa]].
  rewrite Eb0, Ea0 in H. cbn [bind] in H. unfold OrderBook_new in H.
  destruct (py_sorted64 price_sort_key true (py_or b (PyList []))) as [sb|x] eqn:Eb;
    cbn [bind] in H; [|discriminate].
  destruct (py_sorted64 price_sort_key false (py_or a (PyList []))) as [sa|x] eqn:Ea;
    cbn [bind] in H; [|discriminate].
  injection H as <-. split; [reflexivity|]. split; intros Hf.
  - rewrite (Fb Hf) in Eb. simpl in Eb. injection Eb as <-. auto.
  - rewrite (Fa Hf) in Ea. simpl in Ea. injection Ea as <-. auto.
Qed.

Lemma from_api_response_empty_sides_witness :
  exists ob,
    from_api_response
      (PyDict [("bids", PyNone);
               ("asks", PyList [PyDict [("price", PyStr "0.40"); ("size", PyStr "10")]])]) "t"
    = Ok ob
    /\ token_id ob = "t" /\ bids ob = [] /\ best_bid ob = Ok None.
Proof.
  set (kv := [("bids", PyNone);
              ("asks", PyList [PyDict [("price", PyStr "0.40"); ("size", PyStr "10")]])]).
  destruct (from_api_response (PyDict kv) "t") as [ob|e] eqn:E;
    [|vm_compute in E; discriminate].
  exists ob. destruct (from_api_response_empty_sides kv "t" ob E) as [Ht [Hb _]].
  destruct Hb as [H1 [H2 _]]; [intros v Hv; injection Hv as <-; reflexivity|].
  auto.
Defined.

(** ** The exceptions that escape [fetch_orderbook] *)

Lemma fetch_orderbook_raise (t : string) (r : Response) (e : exn) :
  fetch_orderbook t r = Raise e -> e = AttributeError \/ e = OverflowError.
Proof.
  unfold fetch_orderbook. destruct r as [| | |[data|]]; try discriminate.
  destruct (from_api_response data t) as [ob|e']; [discriminate|].
  destruct e'; simpl; try discriminate; intros H; injection H as <-; auto.
Qed.

Lemma gather_fetch_raise (client : Client) (i : nat) (ts : list string) (e : exn) :
  gather_fetch client i ts = Raise e -> e = AttributeError \/ e = OverflowError.
Proof.
  revert i. induction ts as [|t ts IH]; simpl; intros i H; [discriminate|].
  destruct (fetch_orderbook t (client i t)) as [ob|e'] eqn:E; cbn [bind] in H.
  - destruct (gather_fetch client (S i) ts) as [r|e''] eqn:Er; cbn [bind] in H;
      [discriminate|]. injection H as <-. exact (IH (S i) Er).
  - injection H as <-. exact (fetch_orderbook_raise _ _ _ E).
Qed.

(** The only exceptions [fetch_orderbooks_batch] lets through are
    [AttributeError] and [OverflowError]: timeouts, HTTP errors,
    undecodable bodies and the parse errors [fetch_orderbook] lists are
    all turned into omissions. *)
Theorem fetch_orderbooks_batch_escaping_exns (client : Client) (ts : list string)
    (e : exn) :
  fetch_orderbooks_batch client ts = Raise e -> e = AttributeError \/ e = OverflowError.
Proof.
  unfold fetch_orderbooks_batch. intros H.
  destruct (gather_fetch client 0 ts) as [r|e'] eqn:E; cbn [bind] in H; [discriminate|].
  injection H as <-. exact (gather_fetch_raise _ _ _ _ E).
Qed.

(** A ladder entry that is not a dict, and a 400-digit integer price. *)
Lemma fetch_orderbooks_batch_escaping_exns_witness :
  fetch_orderbooks_batch (fun _ _ => Body (Some (PyDict [("bids", PyList [PyNum 1])])))
    ["a"; "b"] = Raise AttributeError
  /\ fetch_orderbooks_batch
       (fun _ _ => Body (Some (PyDict [("bids", PyList [PyDict [("price", PyNum (inject_Z (10 ^ 400)))]])])))
       ["a"; "b"] = Raise OverflowError
  /\ (OverflowError = AttributeError \/ OverflowError = OverflowError).
Proof.
  split; [vm_compute; reflexivity|]. split; [vm_compute; reflexivity|].
  exact (fetch_orderbooks_batch_escaping_exns
           (fun _ _ => Body (Some (PyDict [("bids", PyList [PyDict [("price", PyNum (inject_Z (10 ^ 400)))]])])))
           ["a"; "b"] OverflowError ltac:(vm_compute; reflexivity)).
Defined.

Lemma gather_fetch_raises_at (client : Client) (i : nat) (ts : list string) (j : nat)
    (t : string) :
  nth_error ts j = Some t -> fetch_orderbook t (client (i + j)%nat t) = Raise AttributeError ->
  (forall j' t', j' <> j -> nth_error ts j' = Some t' ->
     exists o, fetch_orderbook t' (client (i + j')%nat t') = Ok o) ->
  gather_fetch client i ts = Raise AttributeError.
Proof.
  revert i j. induction ts as [|t' ts IH]; intros i j Hj Hf Hok; [destruct j; discriminate|].
  simpl. destruct j as [|j]; simpl in Hj.
  - injection Hj as ->. rewrite Nat.add_0_r in Hf. now rewrite Hf.
  - destruct (Hok 0%nat t' ltac:(discriminate) eq_refl) as [o Ho].
    rewrite Nat.add_0_r in Ho. rewrite Ho. cbn [bind].
    rewrite (IH (S i) j Hj); [reflexivity| |].
    + replace (S i + j)%nat with (i + S j)%nat by lia. exact Hf.
    + intros j' t'' Hne Hn. destruct (Hok (S j') t'' ltac:(lia) Hn) as [o' Ho'].
      exists o'. replace (S i + j')%nat with (i + S j')%nat by lia. exact Ho'.
Qed.

(** If the endpoint answers one of the requests with a JSON body that is
    not an object, and every other request returns normally, the whole
    batch raises [AttributeError]: the failing token is not simply
    omitted. *)
Theorem fetch_orderbooks_batch_non_dict_body (client : Client) (ts : list string)
    (j : nat) (t : string) (data : pyval) :
  nth_error ts j = Some t -> client j t = Body (Some data) ->
  (forall kv, data <> PyDict kv) ->
  (forall j' t', j' <> j -> nth_error ts j' = Some t' ->
     exists o, fetch_orderbook t' (client j' t') = Ok o) ->
  fetch_orderbooks_batch client ts = Raise AttributeError.
Proof.
  intros Hj Hc Hd Hok. unfold fetch_orderbooks_batch.
  rewrite (gather_fetch_raises_at client 0 ts j t Hj); [reflexivity| |exact Hok].
  simpl. rewrite Hc. unfold fetch_orderbook, from_api_response.
  destruct data as [| | | | |kv]; try reflexivity. exfalso. exact (Hd kv eq_refl).
Qed.

Lemma fetch_orderbooks_batch_non_dict_body_witness :
  fetch_orderbooks_batch
    (fun _ t => if String.eqb t "b" then Body (Some (PyNum 7)) else Body (Some empty_book_json))
    ["a"; "b"; "c"] = Raise AttributeError.
Proof.
  apply (fetch_orderbooks_batch_non_dict_body _ _ 1 "b" (PyNum 7)).
  - reflexivity.
  - reflexivity.
  - intros kv H. discriminate H.
  - intros j' t' Hne Hn. destruct j' as [|[|[|j']]]; simpl in Hn;
      [| | |destruct j'; discriminate].
    + injection Hn as <-. eexists. reflexivity.
    + exfalso. exact (Hne eq_refl).
    + injection Hn as <-. eexists. reflexivity.
Defined.
